(** * evalmode: remote execution of decorated Python functions

    A verification development for the two halves of the protocol:

    - [local_client.py]: the bundler ([_strip_decorators], [decorator]) and
      the dispatcher ([_remote_enabled], [wrapper]);
    - [app.py]: the executor ([exec_code]).

    Python text is modelled as [string]; every [ascii] stands for the code
    point of the same number (0..255).  Floating point numbers are left out
    of the JSON model.  The Python interpreter ([exec], calling an object),
    the network ([requests.post]) and [textwrap.dedent] are parameters of the
    sections that use them.  Calls are handled one at a time; the log lines
    of [app.py] go to the logging handlers and are left out. *)

From Stdlib Require Import String Ascii ZArith List DecimalString.
From stdpp Require Import base option list strings gmap.

Set Warnings "-register-all".
Local Open Scope Z_scope.

(** ** Python text primitives *)

Module Py.

Definition LF : string := String "010"%char EmptyString.

Definition ord (c : ascii) : N := N_of_ascii c.

(** Line boundaries of [str.splitlines] below U+0100, apart from the
    carriage return, which may pair with a following line feed. *)
Definition is_linebreak (c : ascii) : bool :=
  let n := ord c in
  ((n =? 10) || (n =? 11) || (n =? 12) || (n =? 28) || (n =? 29)
   || (n =? 30) || (n =? 133))%N.

Definition is_cr (c : ascii) : bool := (ord c =? 13)%N.
Definition is_lf (c : ascii) : bool := (ord c =? 10)%N.

(** [str.isspace] on one character below U+0100. *)
Definition isspace (c : ascii) : bool :=
  let n := ord c in
  (((9 <=? n) && (n <=? 13)) || ((28 <=? n) && (n <=? 32))
   || (n =? 133) || (n =? 160))%N.

(** [s.lstrip()] *)
Fixpoint lstrip (s : string) : string :=
  match s with
  | EmptyString => EmptyString
  | String c rest => if isspace c then lstrip rest else s
  end.

(** [s.startswith(p)] *)
Definition startswith (s p : string) : bool := String.prefix p s.

(** [sep.join(parts)] *)
Definition join (sep : string) (parts : list string) : string :=
  String.concat sep parts.

(** [s.splitlines()]: [cur] is the line read so far. *)
Fixpoint splitlines_from (cur s : string) : list string :=
  match s with
  | EmptyString => match cur with EmptyString => [] | _ => [cur] end
  | String c rest =>
      if is_cr c then
        match rest with
        | String c' rest' =>
            if is_lf c' then cur :: splitlines_from EmptyString rest'
            else cur :: splitlines_from EmptyString rest
        | EmptyString => [cur]
        end
      else if is_linebreak c then cur :: splitlines_from EmptyString rest
      else splitlines_from (cur +:+ String c EmptyString) rest
  end.

Definition splitlines (s : string) : list string :=
  splitlines_from EmptyString s.

(** [s.lower()] below U+0100: the ASCII capitals and the Latin-1 capitals
    (U+00C0..U+00DE without the multiplication sign U+00D7). *)
Definition lower_char (c : ascii) : ascii :=
  let n := ord c in
  if (((65 <=? n) && (n <=? 90))
      || ((192 <=? n) && (n <=? 222) && negb (n =? 215)))%N
  then ascii_of_N (n + 32) else c.

Fixpoint lower (s : string) : string :=
  match s with
  | EmptyString => EmptyString
  | String c rest => String (lower_char c) (lower rest)
  end.

(** Decimal text of an integer, as [str(n)] and [f"{n}"] print it. *)
Definition str_int (z : Z) : string := NilZero.string_of_int (Z.to_int z).

End Py.

(** ** JSON values and the Python view of them *)

Inductive json : Type :=
| JNull
| JBool (b : bool)
| JNum (z : Z)
| JStr (s : string)
| JArr (items : list json)
| JObj (fields : list (string * json)).

(** The binding of [k] in the items of a decoded object (a dict: every key
    occurs once). *)
Fixpoint assoc (k : string) (fields : list (string * json)) : option json :=
  match fields with
  | [] => None
  | (k', v) :: rest => if String.eqb k k' then Some v else assoc k rest
  end.

(** Python truth value of a decoded JSON value. *)
Definition truthy (j : json) : bool :=
  match j with
  | JNull => false
  | JBool b => b
  | JNum z => negb (z =? 0)
  | JStr s => negb (String.eqb s EmptyString)
  | JArr l => match l with [] => false | _ => true end
  | JObj l => match l with [] => false | _ => true end
  end.

(** [type(j).__name__] *)
Definition type_name_json (j : json) : string :=
  match j with
  | JNull => "NoneType"
  | JBool _ => "bool"
  | JNum _ => "int"
  | JStr _ => "str"
  | JArr _ => "list"
  | JObj _ => "dict"
  end.

(** ** Exceptions and outcomes *)

(** An exception in flight: its class, whether that class derives from
    [Exception] (and not only from [BaseException]), and [str(exc)]. *)
Record pyexc : Type := PyExc {
  exc_class : string;
  exc_is_Exception : bool;
  exc_str : string
}.

Inductive outcome (A : Type) : Type :=
| Return (a : A)
| Raise (e : pyexc).
Arguments Return {A} a.
Arguments Raise {A} e.

Definition RuntimeError (msg : string) : pyexc := PyExc "RuntimeError" true msg.
Definition TypeError (msg : string) : pyexc := PyExc "TypeError" true msg.
Definition AttributeError (msg : string) : pyexc :=
  PyExc "AttributeError" true msg.
Definition KeyError (shown_key : string) : pyexc :=
  PyExc "KeyError" true shown_key.
Definition BadRequest (msg : string) : pyexc := PyExc "BadRequest" true msg.

(** ** Computations that thread a state and may raise *)

Definition M (S A : Type) : Type := S -> outcome A * S.

Definition ret {S A} (a : A) : M S A := fun s => (Return a, s).
Definition raise {S A} (e : pyexc) : M S A := fun s => (Raise e, s).
Definition bind {S A B} (m : M S A) (k : A -> M S B) : M S B :=
  fun s =>
    match m s with
    | (Return a, s') => k a s'
    | (Raise e, s') => (Raise e, s')
    end.
(** An operation that reads no state: it returns or raises at once. *)
Definition lift {S A} (o : outcome A) : M S A := fun s => (o, s).

Declare Scope py_scope.
Delimit Scope py_scope with py.
Notation "x <- m ;; k" := (bind m (fun x => k))
  (at level 100, m at next level, right associativity) : py_scope.
Notation "m ;;; k" := (bind m (fun _ => k))
  (at level 100, right associativity) : py_scope.

(** ** Subscripting and [dict.get] on decoded JSON values *)

Section Access.

Variable py_repr : json -> string.

(** [data.get(key)]: [None] when the key is absent; an [AttributeError]
    when [data] is not a dict. *)
Definition dict_get (data : json) (key : string) : outcome json :=
  match data with
  | JObj fields =>
      Return (match assoc key fields with Some v => v | None => JNull end)
  | _ =>
      Raise (AttributeError
               ("'" +:+ type_name_json data +:+ "' object has no attribute 'get'"))
  end.

(** [data.get(key, dflt)] *)
Definition dict_get_default (data : json) (key : string) (dflt : json)
  : outcome json :=
  match data with
  | JObj fields =>
      Return (match assoc key fields with Some v => v | None => dflt end)
  | _ =>
      Raise (AttributeError
               ("'" +:+ type_name_json data +:+ "' object has no attribute 'get'"))
  end.

(** [data[key]] with a text key. *)
Definition getitem (data : json) (key : string) : outcome json :=
  match data with
  | JObj fields =>
      match assoc key fields with
      | Some v => Return v
      | None => Raise (KeyError (py_repr (JStr key)))
      end
  | JArr _ => Raise (TypeError "list indices must be integers or slices, not str")
  | JStr _ => Raise (TypeError "string indices must be integers, not 'str'")
  | _ =>
      Raise (TypeError
               ("'" +:+ type_name_json data +:+ "' object is not subscriptable"))
  end.

End Access.

(** ** local_client.py: helpers *)

Module LocalClient.

(** [os.getenv(name, default)] on the process environment. *)
Definition getenv (environ : gmap string string) (name default : string)
  : string :=
  match environ !! name with
  | Some v => v
  | None => default
  end.

Definition _remote_enabled (environ : gmap string string) : bool :=
  let v := Py.lower (getenv environ "USE_REMOTE_EXEC" "false") in
  String.eqb v "true" || String.eqb v "1" || String.eqb v "yes".

(** [lines[0].lstrip().startswith("@")] *)
Definition is_decorator_line (line : string) : bool :=
  Py.startswith (Py.lstrip line) "@".

(** The loop [while lines and lines[0]...: lines.pop(0)]. *)
Fixpoint pop_decorators (lines : list string) : list string :=
  match lines with
  | [] => []
  | l :: rest => if is_decorator_line l then pop_decorators rest else lines
  end.

Definition _strip_decorators (src : string) : string :=
  Py.join Py.LF (pop_decorators (Py.splitlines src)).

(** [needle in hay] *)
Fixpoint mentions (needle hay : string) : bool :=
  Py.startswith hay needle ||
  match hay with
  | EmptyString => false
  | String _ rest => mentions needle rest
  end.

(** The code names the decorator or the registration marker of this
    module. *)
Definition references_client (code : string) : bool :=
  mentions "remote_if_enabled" code || mentions "remote_func" code.

(** ** The dispatcher and the bundler *)

Section Dispatcher.

(** Python objects passed to and returned by decorated functions, and the
    object a decoded JSON value becomes. *)
Variable Obj : Type.
Variable of_json : json -> Obj.
(** [repr] of a decoded JSON value; [str] agrees with it except on text. *)
Variable py_repr : json -> string.
(** Everything outside the process that a call can touch. *)
Variable World : Type.
(** [textwrap.dedent] *)
Variable dedent : string -> string.

Definition py_str (j : json) : string :=
  match j with
  | JStr s => s
  | _ => py_repr j
  end.

(** The client process: [os.environ], what was printed, the rest. *)
Record proc : Type := Proc {
  environ : gmap string string;
  console : string;
  world : World
}.

(** A function or class object: [__name__], what [inspect.getsource]
    gives for it, and what calling it does. *)
Record callable : Type := Callable {
  fn_name : string;
  fn_source : outcome string;
  fn_call : list Obj -> list (string * Obj) -> proc -> outcome Obj * proc
}.

(** The body of the POST request. *)
Record payload : Type := Payload {
  p_code : string;
  p_func_name : string;
  p_args : list Obj;
  p_kwargs : list (string * Obj)
}.

(** What the dispatcher reads of a [requests.Response]; [resp_json] is
    [None] when [resp.json()] raises. *)
Record response : Type := Response {
  status_code : Z;
  text : string;
  resp_json : option json
}.

(** [requests.post(url, json=payload, timeout=timeout)] *)
Variable requests_post :
  string -> payload -> Z -> World -> outcome response * World.

(** *** Registration of helpers *)

(** [remote_func] appends to [REMOTE_EXPORTS] and returns its argument. *)
Definition remote_func (obj : callable) (REMOTE_EXPORTS : list callable)
  : callable * list callable :=
  (obj, REMOTE_EXPORTS ++ [obj]).

(** [REMOTE_EXPORTS] after the definitions of [objs], each marked with
    [@remote_func], have run in this order in a fresh process. *)
Definition registered (objs : list callable) : list callable :=
  fold_left (fun exports obj => snd (remote_func obj exports)) objs [].

(** *** Bundling *)

(** [textwrap.dedent(_strip_decorators(src))] *)
Definition normalized (src : string) : string :=
  dedent (_strip_decorators src).

(** The same on [inspect.getsource(obj)], which may raise. *)
Definition fragment (obj : callable) : outcome string :=
  match fn_source obj with
  | Return src => Return (normalized src)
  | Raise e => Raise e
  end.

(** The list comprehension over [REMOTE_EXPORTS]. *)
Fixpoint dep_sources (exports : list callable) : outcome (list string) :=
  match exports with
  | [] => Return []
  | obj :: rest =>
      match fragment obj with
      | Raise e => Raise e
      | Return s =>
          match dep_sources rest with
          | Raise e => Raise e
          | Return l => Return (s :: l)
          end
      end
  end.

Definition full_code (func : callable) (exports : list callable)
  : outcome string :=
  match fragment func with
  | Raise e => Raise e
  | Return func_source =>
      match dep_sources exports with
      | Raise e => Raise e
      | Return deps =>
          let bundle_deps_code := Py.join (Py.LF +:+ Py.LF) deps in
          Return (bundle_deps_code +:+ Py.LF +:+ Py.LF +:+ func_source)
      end
  end.

(** *** [remote_if_enabled] and [decorator] *)

Record settings : Type := Settings {
  remote_url : option string;
  print_stdout : bool;
  print_traceback : bool;
  timeout : Z
}.

Definition default_settings : settings := Settings None true true 30.

(** What [remote_if_enabled] leaves to [decorator] and [wrapper]: the
    endpoint after [remote_url or env_default_url] and the other settings. *)
Record closure : Type := Closure {
  c_remote_url : string;
  c_print_stdout : bool;
  c_print_traceback : bool;
  c_timeout : Z
}.

(** [remote_if_enabled(...)], with the environment as it is then. *)
Definition remote_if_enabled (cfg : settings) (env : gmap string string)
  : closure :=
  let env_default_url :=
    getenv env "REMOTE_EXEC_URL" "http://localhost:5005/exec" in
  let url :=
    match remote_url cfg with
    | Some u => if String.eqb u EmptyString then env_default_url else u
    | None => env_default_url
    end in
  Closure url (print_stdout cfg) (print_traceback cfg) (timeout cfg).

(** What the function [wrapper] captures. *)
Record remote_fn : Type := RemoteFn {
  rf_func : callable;
  rf_full_code : string;
  rf_url : string;
  rf_print_stdout : bool;
  rf_print_traceback : bool;
  rf_timeout : Z
}.

(** [decorator(func)], with the helper list as it is then; it raises when
    the source of [func] or of a helper cannot be had. *)
Definition decorator (c : closure) (exports : list callable)
    (func : callable) : outcome remote_fn :=
  match full_code func exports with
  | Raise e => Raise e
  | Return code =>
      Return (RemoteFn func code (c_remote_url c) (c_print_stdout c)
                (c_print_traceback c) (c_timeout c))
  end.

(** *** The wrapper *)

Local Open Scope py_scope.

(** [print(s, end='')] on the local console. *)
Definition print (s : string) : M string unit :=
  fun out => (Return tt, out +:+ s).

(** [if flag and data.get(key): print(label); print(data[key], end='')] *)
Definition echo (flag : bool) (label : string) (data : json) (key : string)
  : M string unit :=
  if flag then
    v <- lift (dict_get data key) ;;
    if truthy v then
      print (label +:+ Py.LF) ;;;
      x <- lift (getitem py_repr data key) ;;
      print (py_str x)
    else ret tt
  else ret tt.

(** The console after [echo] on a dict with these items. *)
Definition echoed (flag : bool) (label : string)
    (fields : list (string * json)) (key : string) (out : string) : string :=
  match assoc key fields with
  | Some v =>
      if flag && truthy v then (out +:+ label +:+ Py.LF) +:+ py_str v else out
  | None => out
  end.

(** [data.get("status") == "ok"] *)
Definition is_ok (status : json) : bool :=
  match status with
  | JStr s => String.eqb s "ok"
  | _ => false
  end.

(** [wrapper] from [resp.json()] on; the state is the local console. *)
Definition interpret (rf : remote_fn) (resp : response) : M string Obj :=
  match resp_json resp with
  | None =>
      raise (RuntimeError ("Remote returned non-JSON body: " +:+ text resp))
  | Some data =>
      ok <- (if status_code resp =? 200
             then s <- lift (dict_get data "status") ;; ret (is_ok s)
             else ret false) ;;
      if (ok : bool) then
        echo (rf_print_stdout rf) "[REMOTE STDOUT]" data "stdout" ;;;
        r <- lift (getitem py_repr data "result") ;;
        ret (of_json r)
      else
        echo (rf_print_stdout rf) "[REMOTE STDOUT]" data "stdout" ;;;
        echo (rf_print_traceback rf) "[REMOTE TRACEBACK]" data "traceback" ;;;
        e <- lift (dict_get data "error") ;;
        let err_msg :=
          if truthy e then py_str e
          else "HTTP " +:+ Py.str_int (status_code resp) in
        raise (RuntimeError ("Remote execution failed: " +:+ err_msg))
  end.

Definition remote_path (rf : remote_fn) (args : list Obj)
    (kwargs : list (string * Obj)) (p : proc) : outcome Obj * proc :=
  let request :=
    Payload (rf_full_code rf) (fn_name (rf_func rf)) args kwargs in
  match requests_post (rf_url rf) request (rf_timeout rf) (world p) with
  | (Raise e, w) => (Raise e, Proc (environ p) (console p) w)
  | (Return resp, w) =>
      match interpret rf resp (console p) with
      | (res, out) => (res, Proc (environ p) out w)
      end
  end.

Definition wrapper (rf : remote_fn) (args : list Obj)
    (kwargs : list (string * Obj)) (p : proc) : outcome Obj * proc :=
  if negb (_remote_enabled (environ p)) then
    fn_call (rf_func rf) args kwargs p
  else remote_path rf args kwargs p.

End Dispatcher.

Arguments Proc {World} environ console world.
Arguments environ {World} p.
Arguments console {World} p.
Arguments world {World} p.
Arguments Callable {Obj World} fn_name fn_source fn_call.
Arguments fn_name {Obj World} c.
Arguments fn_source {Obj World} c.
Arguments fn_call {Obj World} c args kwargs p.
Arguments Payload {Obj} p_code p_func_name p_args p_kwargs.
Arguments p_code {Obj} p.
Arguments p_func_name {Obj} p.
Arguments p_args {Obj} p.
Arguments p_kwargs {Obj} p.
Arguments RemoteFn {Obj World} rf_func rf_full_code rf_url rf_print_stdout
  rf_print_traceback rf_timeout.
Arguments rf_func {Obj World} r.
Arguments rf_full_code {Obj World} r.
Arguments rf_url {Obj World} r.
Arguments rf_print_stdout {Obj World} r.
Arguments rf_print_traceback {Obj World} r.
Arguments rf_timeout {Obj World} r.
Arguments remote_func {Obj World} obj REMOTE_EXPORTS.
Arguments fragment {Obj World} dedent obj.
Arguments dep_sources {Obj World} dedent exports.
Arguments full_code {Obj World} dedent func exports.
Arguments decorator {Obj World} dedent c exports func.
Arguments registered {Obj World} objs.
Arguments interpret {Obj} of_json py_repr {World} rf resp.
Arguments remote_path {Obj} of_json py_repr {World} requests_post rf args
  kwargs p.
Arguments wrapper {Obj} of_json py_repr {World} requests_post rf args
  kwargs p.

End LocalClient.

(** ** app.py: the executor *)

Module App.

Section Executor.

(** Objects of the evaluation environment and results of entry points. *)
Variable Obj : Type.
(** Everything outside the handler that evaluated code can read or change. *)
Variable World : Type.
Variable py_repr : json -> string.

(** What one interpreter step does: the text it writes to [sys.stdout],
    how it ends, and the world it leaves. *)
Record run (A : Type) : Type := Run {
  written : string;
  result : outcome A;
  after : World
}.
Arguments Run {A} written result after.
Arguments written {A} r.
Arguments result {A} r.
Arguments after {A} r.

(** [exec(src, env, env)]: the namespace after the top-level statements. *)
Variable py_exec : string -> gmap string Obj -> World -> run (gmap string Obj).
(** Calling an object of the namespace with the payload's positional and
    keyword arguments unpacked. *)
Variable py_call : Obj -> json -> json -> World -> run Obj.
(** The JSON encoding of a result, [None] when the encoder rejects it. *)
Variable serialize : Obj -> option json.
Variable type_name : Obj -> string.
(** [traceback.format_exc()] while the exception is handled. *)
Variable format_exc : pyexc -> string.

(** The request as the handler sees it through [request.get_json]. *)
Inductive request : Type :=
| Malformed (why : string)
| Body (payload : json).

Definition get_json (req : request) : outcome json :=
  match req with
  | Malformed why => Raise (BadRequest why)
  | Body payload => Return payload
  end.

(** The handler's locals that outlive a failure, and the world. *)
Record hstate : Type := HState {
  stdout_buf : string;
  hworld : World
}.

(** An interpreter step under [contextlib.redirect_stdout(stdout_buf)]. *)
Definition redirect {A} (op : World -> run A) : M hstate A :=
  fun st =>
    let r := op (hworld st) in
    (result r, HState (stdout_buf st +:+ written r) (after r)).

(** [exec(code, env, env)] for whatever the payload holds as ["code"]. *)
Definition builtin_exec (code : json) (env : gmap string Obj)
  : World -> run (gmap string Obj) :=
  match code with
  | JStr src => py_exec src env
  | _ =>
      fun w =>
        Run EmptyString
            (Raise (TypeError "exec() arg 1 must be a string, bytes or code object"))
            w
  end.

(** [env[func_name]]; the namespace has text keys only. *)
Definition env_lookup (env : gmap string Obj) (func_name : json)
  : outcome Obj :=
  match func_name with
  | JStr name =>
      match env !! name with
      | Some f => Return f
      | None => Raise (KeyError (py_repr func_name))
      end
  | JArr _ | JObj _ =>
      Raise (TypeError
               ("unhashable type: '" +:+ type_name_json func_name +:+ "'"))
  | _ => Raise (KeyError (py_repr func_name))
  end.

Definition ok_body (result_json : json) (out : string) : json :=
  JObj [("status", JStr "ok"); ("result", result_json); ("stdout", JStr out)].

Definition error_body (exc : pyexc) (out : string) : json :=
  JObj [("status", JStr "error");
        ("error", JStr (exc_str exc));
        ("traceback", JStr (format_exc exc));
        ("stdout", JStr out)].

(** [jsonify] of the success body. *)
Definition jsonify_ok (res : Obj) (out : string) : outcome json :=
  match serialize res with
  | Some j => Return (ok_body j out)
  | None =>
      Raise (TypeError
               ("Object of type " +:+ type_name res
                +:+ " is not JSON serializable"))
  end.

Local Open Scope py_scope.

(** The [try] block of [exec_code]. *)
Definition try_block (req : request) : M hstate json :=
  payload <- lift (get_json req) ;;
  code <- lift (getitem py_repr payload "code") ;;
  func_name <- lift (getitem py_repr payload "func_name") ;;
  args <- lift (dict_get_default payload "args" (JArr [])) ;;
  kwargs <- lift (dict_get_default payload "kwargs" (JObj [])) ;;
  env <- redirect (builtin_exec code ∅) ;;
  f <- lift (env_lookup env func_name) ;;
  res <- redirect (py_call f args kwargs) ;;
  (fun st => (jsonify_ok res (stdout_buf st), st)).

(** What the view function hands back: a response, or an exception that
    [except Exception] did not catch. *)
Inductive reply : Type :=
| Reply (status : Z) (body : json)
| Unhandled (exc : pyexc).

(** The clause [except Exception as exc]: an exception of another kind
    passes through. *)
Definition except_Exception (exc : pyexc) (out : string) : reply :=
  if exc_is_Exception exc then Reply 500 (error_body exc out)
  else Unhandled exc.

Definition exec_code (req : request) (w : World) : reply * World :=
  match try_block req (HState EmptyString w) with
  | (Return body, st) => (Reply 200 body, hworld st)
  | (Raise exc, st) => (except_Exception exc (stdout_buf st), hworld st)
  end.

(** The request body the client posts for a bundle and a call descriptor. *)
Definition post_body (src name : string) (args kwargs : json) : request :=
  Body (JObj [("code", JStr src); ("func_name", JStr name);
              ("args", args); ("kwargs", kwargs)]).

(** What the interpreter steps run for [req] write to [sys.stdout], in
    order, up to and including the step that fails: the evaluation of the
    bundle, then, if the entry point was found, its call. *)
Definition console_output (req : request) (w : World) : string :=
  match req with
  | Body (JObj fields) =>
      match assoc "code" fields, assoc "func_name" fields with
      | Some code, Some func_name =>
          let args :=
            match assoc "args" fields with Some v => v | None => JArr [] end in
          let kwargs :=
            match assoc "kwargs" fields with Some v => v | None => JObj [] end in
          let r1 := builtin_exec code ∅ w in
          match result r1 with
          | Raise _ => written r1
          | Return env =>
              match env_lookup env func_name with
              | Raise _ => written r1
              | Return f =>
                  written r1 +:+ written (py_call f args kwargs (after r1))
              end
          end
      | _, _ => EmptyString
      end
  | _ => EmptyString
  end.

(** The bundle and the call have no effect outside the evaluation: the two
    interpreter steps leave the world as they found it. *)
Definition no_external_effects (src name : string) (args kwargs : json)
    (w : World) : Prop :=
  after (py_exec src ∅ w) = w
  /\ forall env f,
       result (py_exec src ∅ w) = Return env ->
       env !! name = Some f ->
       after (py_call f args kwargs w) = w.

End Executor.

Arguments Run {World A} written result after.
Arguments written {World A} r.
Arguments result {World A} r.
Arguments after {World A} r.
Arguments HState {World} stdout_buf hworld.
Arguments stdout_buf {World} h.
Arguments hworld {World} h.

End App.

(** ** textwrap.dedent

    The standard library's [dedent] on text whose lines end in line feeds:
    lines of blanks and tabs become empty, the margin is the longest run of
    blanks and tabs that starts every other line, and it is removed from the
    lines that start with it. *)

Module Textwrap.

Definition is_sp_tab (c : ascii) : bool :=
  ((Py.ord c =? 32) || (Py.ord c =? 9))%N.

(** [text.split("\n")] *)
Fixpoint split_lf_from (cur s : string) : list string :=
  match s with
  | EmptyString => [cur]
  | String c rest =>
      if Py.is_lf c then cur :: split_lf_from EmptyString rest
      else split_lf_from (cur +:+ String c EmptyString) rest
  end.

Definition split_lf (s : string) : list string := split_lf_from EmptyString s.

Fixpoint all_sp_tab (s : string) : bool :=
  match s with
  | EmptyString => true
  | String c rest => is_sp_tab c && all_sp_tab rest
  end.

Definition blank_to_empty (line : string) : string :=
  if all_sp_tab line then EmptyString else line.

Fixpoint indent_of (line : string) : string :=
  match line with
  | EmptyString => EmptyString
  | String c rest =>
      if is_sp_tab c then String c (indent_of rest) else EmptyString
  end.

Fixpoint common_prefix (a b : string) : string :=
  match a, b with
  | String x a', String y b' =>
      if Ascii.eqb x y then String x (common_prefix a' b') else EmptyString
  | _, _ => EmptyString
  end.

(** One round of the loop over the indents: in each of its branches the new
    margin is the longest common prefix of the old one and the indent. *)
Definition margin_step (margin : option string) (indent : string)
  : option string :=
  match margin with
  | None => Some indent
  | Some m => Some (common_prefix m indent)
  end.

Definition is_empty (s : string) : bool :=
  match s with EmptyString => true | _ => false end.

Definition margin_of (lines : list string) : option string :=
  fold_left margin_step
    (map indent_of (List.filter (fun l => negb (is_empty l)) lines)) None.

Fixpoint remove_prefix (p s : string) : option string :=
  match p, s with
  | EmptyString, _ => Some s
  | String x p', String y s' =>
      if Ascii.eqb x y then remove_prefix p' s' else None
  | String _ _, EmptyString => None
  end.

Definition unindent (margin line : string) : string :=
  match remove_prefix margin line with
  | Some rest => rest
  | None => line
  end.

(** The lines of a text, the blank ones emptied. *)
Definition lines_of (text : string) : list string :=
  map blank_to_empty (split_lf text).

Definition dedent (text : string) : string :=
  let lines := lines_of text in
  match margin_of lines with
  | Some m =>
      if is_empty m then Py.join Py.LF lines
      else Py.join Py.LF (map (unindent m) lines)
  | None => Py.join Py.LF lines
  end.

(** No run of blanks and tabs starts every non-empty line: some line
    starts at the left edge, or no line has anything on it. *)
Definition no_margin (lines : list string) : Prop :=
  match margin_of lines with
  | Some m => m = EmptyString
  | None => True
  end.

(** The text holds no line feed. *)
Fixpoint no_lf (s : string) : bool :=
  match s with
  | EmptyString => true
  | String c rest => negb (Py.is_lf c) && no_lf rest
  end.

(** A line as [lines_of] gives it: empty, or with more than blanks and
    tabs on it. *)
Definition normal (line : string) : bool :=
  is_empty line || negb (all_sp_tab line).

(** The line behind its indentation. *)
Fixpoint after_indent (line : string) : string :=
  match line with
  | EmptyString => EmptyString
  | String c rest => if is_sp_tab c then after_indent rest else line
  end.

End Textwrap.

(** ** A stand-in interpreter and network

    Small instances of the parameters of the two sections, on which the
    model can be run. *)

Module Demo.

Import Py.

(** *** Server side *)

Inductive obj : Type :=
| OVal (j : json)
| OSet
| OPrintThen (out : string) (res : obj)
| ORaise (out : string) (exc : pyexc)
| OAppendLog.

Definition repr (j : json) : string :=
  match j with
  | JNull => "None"
  | JBool true => "True"
  | JBool false => "False"
  | JNum z => str_int z
  | JStr s => "'" +:+ s +:+ "'"
  | JArr _ => "[...]"
  | JObj _ => "{...}"
  end.

Definition src_hi : string :=
  "print('loading')" +:+ LF +:+ "def f():" +:+ LF
  +:+ "    print('hi')" +:+ LF +:+ "    return 0".
Definition src_div : string :=
  "def f():" +:+ LF +:+ "    print('before')" +:+ LF +:+ "    return 1/0".
Definition src_exit : string :=
  "def f():" +:+ LF +:+ "    print('bye')" +:+ LF +:+ "    raise SystemExit(1)".
Definition src_set : string :=
  "def f():" +:+ LF +:+ "    print('made')" +:+ LF +:+ "    return {1}".
Definition src_log : string :=
  "def f():" +:+ LF +:+ "    open('log', 'a').write('x')" +:+ LF
  +:+ "    return len(open('log').read())".
Definition src_bad : string := "def f(:".

Definition ZeroDivisionError : pyexc :=
  PyExc "ZeroDivisionError" true "division by zero".
Definition SystemExit : pyexc := PyExc "SystemExit" false "1".
Definition SyntaxError : pyexc :=
  PyExc "SyntaxError" true "invalid syntax (<string>, line 1)".

(** The interpreter knows six programs; every other text is a syntax
    error.  The world is the length of the file [log]. *)
Definition exec (src : string) (env : gmap string obj) (w : nat)
  : App.run nat (gmap string obj) :=
  if String.eqb src src_hi then
    App.Run ("loading" +:+ LF)
      (Return (<["f" := OPrintThen ("hi" +:+ LF) (OVal (JNum 0))]> env)) w
  else if String.eqb src src_div then
    App.Run EmptyString
      (Return (<["f" := ORaise ("before" +:+ LF) ZeroDivisionError]> env)) w
  else if String.eqb src src_exit then
    App.Run EmptyString
      (Return (<["f" := ORaise ("bye" +:+ LF) SystemExit]> env)) w
  else if String.eqb src src_set then
    App.Run EmptyString
      (Return (<["f" := OPrintThen ("made" +:+ LF) OSet]> env)) w
  else if String.eqb src src_log then
    App.Run EmptyString (Return (<["f" := OAppendLog]> env)) w
  else App.Run EmptyString (Raise SyntaxError) w.

Definition call (f : obj) (args kwargs : json) (w : nat) : App.run nat obj :=
  match f with
  | OPrintThen out res => App.Run out (Return res) w
  | ORaise out exc => App.Run out (Raise exc) w
  | OAppendLog => App.Run EmptyString (Return (OVal (JNum (Z.of_nat (S w))))) (S w)
  | _ => App.Run EmptyString (Raise (TypeError "object is not callable")) w
  end.

Definition serialize (o : obj) : option json :=
  match o with
  | OVal j => Some j
  | _ => None
  end.

Definition type_name (o : obj) : string :=
  match o with
  | OVal j => type_name_json j
  | OSet => "set"
  | _ => "function"
  end.

Definition format_exc (exc : pyexc) : string :=
  "Traceback (most recent call last):" +:+ LF
  +:+ exc_class exc +:+ ": " +:+ exc_str exc +:+ LF.

Definition exec_code : App.request -> nat -> App.reply * nat :=
  App.exec_code obj nat repr exec call serialize type_name format_exc.

(** A call of [f] without arguments in the bundle [src]. *)
Definition request_for (src : string) : App.request :=
  App.post_body src "f" (JArr []) (JObj []).

(** *** Client side

    Objects are decoded JSON values; the world is the response the remote
    end has ready. *)

Definition post (url : string) (request : LocalClient.payload json)
    (timeout : Z) (w : LocalClient.response)
  : outcome LocalClient.response * LocalClient.response :=
  (Return w, w).

Abbreviation cproc := (LocalClient.proc LocalClient.response).
Abbreviation ccallable := (LocalClient.callable json LocalClient.response).
Abbreviation cremote_fn := (LocalClient.remote_fn json LocalClient.response).

Definition wrapper : cremote_fn -> list json -> list (string * json) ->
                     cproc -> outcome json * cproc :=
  LocalClient.wrapper (fun j => j) repr post.

Definition decorator : LocalClient.closure -> list ccallable -> ccallable ->
                       outcome cremote_fn :=
  LocalClient.decorator Textwrap.dedent.

(** The helper and the entry function of myscript.py, abridged. *)
Definition hello_world_src : string :=
  "@remote_func" +:+ LF +:+ "def hello_world():" +:+ LF
  +:+ "    print('Hello, world!')" +:+ LF +:+ "    return 42" +:+ LF.

Definition test_src : string :=
  "@remote_if_enabled(remote_url='http://127.0.0.1:5005/exec', print_stdout=True)"
  +:+ LF +:+ "def test():" +:+ LF
  +:+ "    print('Running remotely!')" +:+ LF
  +:+ "    return 123" +:+ LF.

Definition say (line : string) (p : cproc) : cproc :=
  LocalClient.Proc (LocalClient.environ p)
    (LocalClient.console p +:+ line +:+ LF) (LocalClient.world p).

Definition setenv (name value : string) (p : cproc) : cproc :=
  LocalClient.Proc (<[name := value]> (LocalClient.environ p))
    (LocalClient.console p) (LocalClient.world p).

Definition hello_world : ccallable :=
  LocalClient.Callable "hello_world" (Return hello_world_src)
    (fun _ _ p => (Return (JNum 42), say "Hello, world!" p)).

Definition test : ccallable :=
  LocalClient.Callable "test" (Return test_src)
    (fun _ _ p => (Return (JNum 123), say "Running remotely!" p)).

(** A helper class with a decorated method. *)
Definition jobs_src : string :=
  "@remote_func" +:+ LF +:+ "class Jobs:" +:+ LF
  +:+ "    @remote_if_enabled()" +:+ LF
  +:+ "    def run(self):" +:+ LF
  +:+ "        return 1" +:+ LF.

Definition jobs : ccallable :=
  LocalClient.Callable "Jobs" (Return jobs_src)
    (fun _ _ p => (Return JNull, p)).

Definition my_settings : LocalClient.settings :=
  LocalClient.Settings (Some "http://127.0.0.1:5005/exec") true true 30.

Definition reply_ok_200 : LocalClient.response :=
  LocalClient.Response 200 "{...}"
    (Some (JObj [("status", JStr "ok"); ("result", JNum 123);
                 ("stdout", JStr ("Running remotely!" +:+ LF))])).

(** A body that says "ok" under a transport status that is not 200. *)
Definition reply_ok_500 : LocalClient.response :=
  LocalClient.Response 500 "{...}"
    (Some (JObj [("status", JStr "ok"); ("result", JNum 123);
                 ("stdout", JStr EmptyString)])).

Definition reply_html : LocalClient.response :=
  LocalClient.Response 502 "<html>Bad Gateway</html>" None.

Definition remote_env : gmap string string := {["USE_REMOTE_EXEC" := "1"]}.

Definition test_fn : cremote_fn :=
  LocalClient.RemoteFn test
    ("def hello_world():" +:+ LF +:+ "    print('Hello, world!')" +:+ LF
     +:+ "    return 42" +:+ LF +:+ LF
     +:+ "def test():" +:+ LF +:+ "    print('Running remotely!')" +:+ LF
     +:+ "    return 123")
    "http://127.0.0.1:5005/exec" true true 30.

End Demo.

(** ** Shapes of values and texts used to state further properties *)

Module Shapes.

Definition is_dict (j : json) : bool :=
  match j with
  | JObj _ => true
  | _ => false
  end.

(** What [data.get] raises on a value that is no dict. *)
Definition no_get (data : json) : pyexc :=
  AttributeError
    ("'" +:+ type_name_json data +:+ "' object has no attribute 'get'").

(** The items of a dict. *)
Definition items (j : json) : list (string * json) :=
  match j with
  | JObj fields => fields
  | _ => []
  end.

(** Two item lists bind every key alike: the same dict, whatever the order
    the encoder wrote the keys in. *)
Definition same_items (f g : list (string * json)) : Prop :=
  forall k, assoc k f = assoc k g.

(** The console after a header and a text are printed, when the setting
    is on and the text is not empty. *)
Definition shown (flag : bool) (label text out : string) : string :=
  if flag && negb (String.eqb text EmptyString)
  then (out +:+ label +:+ Py.LF) +:+ text else out.

(** A character at which [str.splitlines] ends a line. *)
Definition is_boundary (c : ascii) : bool := Py.is_linebreak c || Py.is_cr c.

Fixpoint all_chars (P : ascii -> bool) (s : string) : bool :=
  match s with
  | EmptyString => true
  | String c rest => P c && all_chars P rest
  end.

(** No line ends inside the text. *)
Definition one_line (s : string) : bool :=
  all_chars (fun c => negb (is_boundary c)) s.

(** The text is not empty and its last character ends no line. *)
Fixpoint ends_open (s : string) : bool :=
  match s with
  | EmptyString => false
  | String c EmptyString => negb (is_boundary c)
  | String _ rest => ends_open rest
  end.

(** The payload gives the handler something to evaluate: it is a dict
    that holds a text under "code" and anything under "func_name". *)
Definition has_code (req : App.request) : bool :=
  match req with
  | App.Body (JObj fields) =>
      match assoc "code" fields, assoc "func_name" fields with
      | Some (JStr _), Some _ => true
      | _, _ => false
      end
  | _ => false
  end.

End Shapes.

(** ** Further inputs for the stand-in interpreter and network *)

Module Cases.

Import Py.

(** A network that is down. *)
Definition ConnectionError : pyexc :=
  PyExc "ConnectionError" true "connection refused".

Definition post_down (url : string) (request : LocalClient.payload json)
    (timeout : Z) (w : LocalClient.response)
  : outcome LocalClient.response * LocalClient.response :=
  (Raise ConnectionError, w).

(** A network that answers only the request of [Demo.test_fn] and is down
    for every other one. *)
Definition post_only_test (url : string) (request : LocalClient.payload json)
    (timeout : Z) (w : LocalClient.response)
  : outcome LocalClient.response * LocalClient.response :=
  if String.eqb url "http://127.0.0.1:5005/exec"
     && String.eqb (LocalClient.p_func_name request) "test"
  then (Return w, w) else (Raise ConnectionError, w).

(** A body that is JSON but no dict. *)
Definition reply_list : LocalClient.response :=
  LocalClient.Response 200 "[1, 2]" (Some (JArr [JNum 1; JNum 2])).

(** The executor's failure reply for [1/0]. *)
Definition reply_div : LocalClient.response :=
  LocalClient.Response 500 "{...}"
    (Some (App.error_body Demo.format_exc Demo.ZeroDivisionError
             ("before" +:+ LF))).

(** The executor's success reply, keys in the order of a sorting
    encoder. *)
Definition reply_sorted_ok : LocalClient.response :=
  LocalClient.Response 200 "{...}"
    (Some (JObj [("result", JNum 0);
                 ("status", JStr "ok");
                 ("stdout", JStr ("loading" +:+ LF +:+ "hi" +:+ LF))])).

(** A function typed at the interactive prompt: [inspect.getsource] has
    no file to read it from. *)
Definition OSError : pyexc := PyExc "OSError" true "could not get source code".

Definition typed_at_prompt : Demo.ccallable :=
  LocalClient.Callable "scratch" (Raise OSError)
    (fun _ _ p => (Return (JNum 0), p)).

End Cases.

(** * Facts about text *)

Module StringFacts.

Lemma append_assoc (a b c : string) : (a +:+ b) +:+ c = a +:+ b +:+ c.
Proof.
  induction a as [|x a IH]; [reflexivity|].
  change (String x ((a +:+ b) +:+ c) = String x (a +:+ b +:+ c)).
  now rewrite IH.
Qed.

Lemma append_empty_r (a : string) : a +:+ EmptyString = a.
Proof.
  induction a as [|x a IH]; [reflexivity|].
  change (String x (a +:+ EmptyString) = String x a). now rewrite IH.
Qed.

End StringFacts.

(** * Properties of the dedent model *)

Module TextwrapFacts.

Import Py Textwrap StringFacts.

(** *** Splitting at line feeds undoes joining with line feeds *)

Lemma no_lf_app a b : no_lf (a +:+ b) = no_lf a && no_lf b.
Proof.
  induction a as [|x a IH]; [reflexivity|].
  change (String x a +:+ b) with (String x (a +:+ b)).
  cbn [no_lf]. rewrite IH. now rewrite andb_assoc.
Qed.

(** A line without line feed in front of the text joins the line read so
    far. *)
Lemma split_lf_from_line cur l rest :
  no_lf l = true ->
  split_lf_from cur (l +:+ rest) = split_lf_from (cur +:+ l) rest.
Proof.
  revert cur. induction l as [|c l IH]; intros cur H.
  - now rewrite append_empty_r.
  - cbn [no_lf] in H. apply andb_prop in H as [Hc Hl].
    change (String c l +:+ rest) with (String c (l +:+ rest)).
    cbn [split_lf_from]. destruct (is_lf c); [discriminate|].
    rewrite (IH _ Hl). f_equal. rewrite append_assoc. reflexivity.
Qed.

Lemma split_lf_from_LF cur rest :
  split_lf_from cur (LF +:+ rest) = cur :: split_lf_from EmptyString rest.
Proof. reflexivity. Qed.

Lemma split_lf_join (l : string) (ls : list string) :
  forallb no_lf (l :: ls) = true ->
  split_lf (join LF (l :: ls)) = l :: ls.
Proof.
  unfold split_lf. revert l. induction ls as [|l' ls IH]; intros l H.
  - cbn [forallb] in H. apply andb_prop in H as [Hl _].
    change (join LF [l]) with l. rewrite <- (append_empty_r l) at 1.
    rewrite (split_lf_from_line _ _ _ Hl). reflexivity.
  - cbn [forallb] in H. apply andb_prop in H as [Hl H].
    change (join LF (l :: l' :: ls)) with (l +:+ LF +:+ join LF (l' :: ls)).
    rewrite (split_lf_from_line _ _ _ Hl). rewrite split_lf_from_LF.
    f_equal. apply IH. exact H.
Qed.

Lemma split_lf_from_no_lf cur s :
  no_lf cur = true -> forallb no_lf (split_lf_from cur s) = true.
Proof.
  revert cur. induction s as [|c s IH]; intros cur H; cbn [split_lf_from].
  - cbn. now rewrite H.
  - destruct (is_lf c) eqn:Hc.
    + cbn [forallb]. rewrite H. now apply IH.
    + apply IH. rewrite no_lf_app, H. cbn. now rewrite Hc.
Qed.

Lemma split_lf_from_cons cur s : exists l ls, split_lf_from cur s = l :: ls.
Proof.
  revert cur. induction s as [|c s IH]; intros cur; cbn [split_lf_from].
  - eauto.
  - destruct (is_lf c); eauto.
Qed.

(** *** Lines and their indentation *)

Lemma blank_to_empty_normal l : normal (blank_to_empty l) = true.
Proof.
  unfold blank_to_empty, normal. destruct (all_sp_tab l) eqn:H; [reflexivity|].
  rewrite H. now rewrite orb_true_r.
Qed.

Lemma blank_to_empty_id l : normal l = true -> blank_to_empty l = l.
Proof.
  unfold blank_to_empty, normal. destruct l as [|c l]; [reflexivity|].
  cbn [is_empty orb]. intros H. now destruct (all_sp_tab (String c l)).
Qed.

Lemma blank_to_empty_no_lf l : no_lf l = true -> no_lf (blank_to_empty l) = true.
Proof. unfold blank_to_empty. now destruct (all_sp_tab l). Qed.

Lemma indent_split l : l = indent_of l +:+ after_indent l.
Proof.
  induction l as [|c l IH]; [reflexivity|]. cbn [indent_of after_indent].
  destruct (is_sp_tab c); [|reflexivity].
  change (String c (indent_of l) +:+ after_indent l)
    with (String c (indent_of l +:+ after_indent l)).
  now rewrite <- IH.
Qed.

Lemma indent_of_all_sp_tab l : all_sp_tab (indent_of l) = true.
Proof.
  induction l as [|c l IH]; [reflexivity|]. cbn [indent_of].
  destruct (is_sp_tab c) eqn:Hc; [|reflexivity]. cbn [all_sp_tab].
  now rewrite Hc, IH.
Qed.

Lemma indent_of_after_indent l : indent_of (after_indent l) = EmptyString.
Proof.
  induction l as [|c l IH]; [reflexivity|]. cbn [after_indent].
  destruct (is_sp_tab c) eqn:Hc; [exact IH|]. cbn [indent_of]. now rewrite Hc.
Qed.

Lemma all_sp_tab_app a b : all_sp_tab (a +:+ b) = all_sp_tab a && all_sp_tab b.
Proof.
  induction a as [|x a IH]; [reflexivity|].
  change (String x a +:+ b) with (String x (a +:+ b)).
  cbn [all_sp_tab]. rewrite IH. now rewrite andb_assoc.
Qed.

Lemma indent_of_app a b :
  all_sp_tab a = true -> indent_of (a +:+ b) = a +:+ indent_of b.
Proof.
  induction a as [|x a IH]; intros H; [reflexivity|].
  cbn [all_sp_tab] in H. apply andb_prop in H as [Hx Ha].
  change (String x a +:+ b) with (String x (a +:+ b)).
  cbn [indent_of]. rewrite Hx, (IH Ha). reflexivity.
Qed.

Lemma all_sp_tab_after_indent l :
  all_sp_tab l = false -> all_sp_tab (after_indent l) = false.
Proof.
  induction l as [|c l IH]; [discriminate|]. cbn [all_sp_tab after_indent].
  destruct (is_sp_tab c) eqn:Hc; [exact IH|]. intros _.
  cbn [all_sp_tab]. now rewrite Hc.
Qed.

(** *** The margin is a common prefix, and the longest one *)

Lemma remove_prefix_app m r : remove_prefix m (m +:+ r) = Some r.
Proof.
  induction m as [|x m IH]; [reflexivity|].
  change (String x m +:+ r) with (String x (m +:+ r)).
  cbn [remove_prefix]. now rewrite Ascii.eqb_refl.
Qed.

Lemma unindent_app m r : unindent m (m +:+ r) = r.
Proof. unfold unindent. now rewrite remove_prefix_app. Qed.

Lemma unindent_empty m : m <> EmptyString -> unindent m EmptyString = EmptyString.
Proof. destruct m; [congruence|reflexivity]. Qed.

Lemma common_prefix_app m a b :
  common_prefix (m +:+ a) (m +:+ b) = m +:+ common_prefix a b.
Proof.
  induction m as [|x m IH]; [reflexivity|].
  change (String x m +:+ a) with (String x (m +:+ a)).
  change (String x m +:+ b) with (String x (m +:+ b)).
  cbn [common_prefix]. rewrite Ascii.eqb_refl, IH. reflexivity.
Qed.

Lemma common_prefix_l a b : exists r, a = common_prefix a b +:+ r.
Proof.
  revert b. induction a as [|x a IH]; intros b; [exists EmptyString; reflexivity|].
  destruct b as [|y b]; [exists (String x a); reflexivity|].
  cbn [common_prefix]. destruct (Ascii.eqb x y); [|exists (String x a); reflexivity].
  destruct (IH b) as [r Hr]. exists r.
  change (String x (common_prefix a b) +:+ r) with (String x (common_prefix a b +:+ r)).
  now rewrite <- Hr.
Qed.

Lemma common_prefix_r a b : exists r, b = common_prefix a b +:+ r.
Proof.
  revert b. induction a as [|x a IH]; intros b; [exists b; reflexivity|].
  destruct b as [|y b]; [exists EmptyString; reflexivity|].
  cbn [common_prefix]. destruct (Ascii.eqb_spec x y) as [->|_];
    [|exists (String y b); reflexivity].
  destruct (IH b) as [r Hr]. exists r.
  change (String y (common_prefix a b) +:+ r) with (String y (common_prefix a b +:+ r)).
  now rewrite <- Hr.
Qed.

(** The fold of [common_prefix] is a prefix of its start and of every
    element. *)
Lemma fold_common_prefix_acc I acc :
  exists r, acc = fold_left common_prefix I acc +:+ r.
Proof.
  revert acc. induction I as [|i I IH]; intros acc; cbn [fold_left].
  - exists EmptyString. now rewrite append_empty_r.
  - destruct (IH (common_prefix acc i)) as [r Hr].
    destruct (common_prefix_l acc i) as [r' Hr'].
    exists (r +:+ r'). rewrite <- append_assoc, <- Hr. exact Hr'.
Qed.

Lemma fold_common_prefix_elem I acc i :
  In i I -> exists r, i = fold_left common_prefix I acc +:+ r.
Proof.
  revert acc. induction I as [|j I IH]; intros acc []; cbn [fold_left].
  - subst j. destruct (fold_common_prefix_acc I (common_prefix acc i)) as [r Hr].
    destruct (common_prefix_r acc i) as [r' Hr'].
    exists (r +:+ r'). rewrite <- append_assoc, <- Hr. exact Hr'.
  - now apply IH.
Qed.

Lemma fold_common_prefix_app m A a0 :
  fold_left common_prefix (map (String.append m) A) (m +:+ a0)
  = m +:+ fold_left common_prefix A a0.
Proof.
  revert a0. induction A as [|a A IH]; intros a0; [reflexivity|].
  cbn [map fold_left]. rewrite common_prefix_app. apply IH.
Qed.

Lemma fold_margin_step I acc :
  fold_left margin_step I (Some acc) = Some (fold_left common_prefix I acc).
Proof.
  revert acc. induction I as [|i I IH]; intros acc; [reflexivity|].
  cbn [fold_left margin_step]. apply IH.
Qed.

(** The margin starts the indentation of every non-empty line. *)
Lemma margin_of_prefix lines m l :
  margin_of lines = Some m -> In l lines -> is_empty l = false ->
  exists a, indent_of l = m +:+ a.
Proof.
  unfold margin_of. intros Hm Hl Hne.
  assert (Hin : In (indent_of l)
                  (map indent_of (List.filter (fun l => negb (is_empty l)) lines))).
  { apply in_map. apply filter_In. split; [exact Hl|]. now rewrite Hne. }
  destruct (map indent_of (List.filter (fun l => negb (is_empty l)) lines))
    as [|i0 I]; [destruct Hin|].
  cbn [fold_left margin_step] in Hm. rewrite fold_margin_step in Hm.
  injection Hm as <-. destruct Hin as [<-|Hin].
  - apply fold_common_prefix_acc.
  - now apply fold_common_prefix_elem.
Qed.

Lemma normal_nonempty l :
  normal l = true -> is_empty l = false -> all_sp_tab l = false.
Proof.
  unfold normal. intros H Hne. rewrite Hne in H. cbn in H.
  now destruct (all_sp_tab l).
Qed.

Lemma not_all_sp_tab_nonempty l : all_sp_tab l = false -> is_empty l = false.
Proof. now destruct l. Qed.

(** Removing the margin from a line with something on it shortens its
    indentation by the margin and leaves something on it. *)
Lemma unindent_line m a l :
  normal l = true -> is_empty l = false -> indent_of l = m +:+ a ->
  is_empty (unindent m l) = false
  /\ normal (unindent m l) = true
  /\ indent_of (unindent m l) = a
  /\ unindent m (indent_of l) = a.
Proof.
  intros Hn Hne Hind.
  pose proof (normal_nonempty l Hn Hne) as Hns.
  pose proof (indent_of_all_sp_tab l) as Hall. rewrite Hind in Hall.
  rewrite all_sp_tab_app in Hall. apply andb_prop in Hall as [_ Ha].
  assert (Hl : unindent m l = a +:+ after_indent l).
  { rewrite (indent_split l) at 1. rewrite Hind, append_assoc.
    apply unindent_app. }
  assert (Hns' : all_sp_tab (unindent m l) = false).
  { rewrite Hl, all_sp_tab_app, (all_sp_tab_after_indent l Hns).
    apply andb_false_r. }
  repeat split.
  - now apply not_all_sp_tab_nonempty.
  - unfold normal. rewrite Hns'. apply orb_true_r.
  - rewrite Hl, (indent_of_app _ _ Ha), indent_of_after_indent.
    apply append_empty_r.
  - rewrite Hind. apply unindent_app.
Qed.

Lemma unindent_indents m lines :
  m <> EmptyString ->
  forallb normal lines = true ->
  (forall l, In l lines -> is_empty l = false -> exists a, indent_of l = m +:+ a) ->
  let I := map indent_of (List.filter (fun l => negb (is_empty l)) lines) in
  map indent_of (List.filter (fun l => negb (is_empty l)) (map (unindent m) lines))
  = map (unindent m) I
  /\ map (String.append m) (map (unindent m) I) = I
  /\ forallb normal (map (unindent m) lines) = true.
Proof.
  intros Hm. induction lines as [|l lines IH]; intros Hn Hpre I.
  - repeat split.
  - cbn [forallb] in Hn. apply andb_prop in Hn as [Hl Hn].
    destruct (IH Hn (fun l' Hin => Hpre l' (or_intror Hin))) as [IH1 [IH2 IH3]].
    subst I. cbn [map List.filter forallb].
    destruct (is_empty l) eqn:Hne.
    + destruct l; [|discriminate]. rewrite (unindent_empty m Hm).
      cbn [is_empty negb]. rewrite IH3. repeat split; assumption.
    + destruct (Hpre l (or_introl eq_refl) Hne) as [a Ha].
      destruct (unindent_line m a l Hl Hne Ha) as [H1 [H2 [H3 H4]]].
      rewrite H1. cbn [negb map]. rewrite H2, IH3, IH1, IH2, H3, H4.
      repeat split. now rewrite <- Ha.
Qed.

(** Once the margin is removed from every line, the margin is empty. *)
Lemma margin_after_unindent m lines :
  m <> EmptyString ->
  forallb normal lines = true ->
  margin_of lines = Some m ->
  margin_of (map (unindent m) lines) = Some EmptyString
  /\ forallb normal (map (unindent m) lines) = true.
Proof.
  intros Hm Hn Hmargin.
  destruct (unindent_indents m lines Hm Hn
              (fun l => margin_of_prefix lines m l Hmargin)) as [H1 [H2 H3]].
  split; [|exact H3].
  unfold margin_of in *. rewrite H1.
  destruct (map indent_of (List.filter (fun l => negb (is_empty l)) lines))
    as [|i0 I]; [discriminate|].
  cbn [map] in *. injection H2 as Hi0 HI.
  cbn [fold_left margin_step] in *. rewrite fold_margin_step in *.
  injection Hmargin as Hfold. f_equal.
  rewrite <- Hi0, <- HI in Hfold. rewrite fold_common_prefix_app in Hfold.
  apply (inj (String.append m)). now rewrite append_empty_r.
Qed.

Lemma remove_prefix_no_lf m l rest :
  remove_prefix m l = Some rest -> no_lf l = true -> no_lf rest = true.
Proof.
  revert l. induction m as [|x m IH]; intros l H Hl; cbn [remove_prefix] in H.
  - now injection H as <-.
  - destruct l as [|y l]; [discriminate|].
    destruct (Ascii.eqb x y); [|discriminate].
    cbn [no_lf] in Hl. apply andb_prop in Hl as [_ Hl]. now apply (IH l).
Qed.

Lemma unindent_no_lf m l : no_lf l = true -> no_lf (unindent m l) = true.
Proof.
  unfold unindent. intros H.
  destruct (remove_prefix m l) as [rest|] eqn:Hrest; [|exact H].
  now apply (remove_prefix_no_lf m l rest).
Qed.

Lemma forallb_map_id {A} (f : A -> A) (P : A -> bool) l :
  (forall x, P x = true -> f x = x) -> forallb P l = true -> map f l = l.
Proof.
  intros Hf. induction l as [|x l IH]; [reflexivity|]. cbn [forallb map].
  intros H. apply andb_prop in H as [Hx Hl]. now rewrite (Hf x Hx), (IH Hl).
Qed.

Lemma forallb_map {A B} (f : A -> B) (P : B -> bool) l :
  (forall x, P (f x) = true) -> forallb P (map f l) = true.
Proof. intros H. induction l; cbn; [reflexivity|]. now rewrite H. Qed.

Lemma forallb_map_impl {A} (f : A -> A) (P : A -> bool) l :
  (forall x, P x = true -> P (f x) = true) ->
  forallb P l = true -> forallb P (map f l) = true.
Proof.
  intros H. induction l as [|x l IH]; [reflexivity|]. cbn [forallb map].
  intros Hl. apply andb_prop in Hl as [Hx Hl]. now rewrite (H x Hx), (IH Hl).
Qed.

Lemma lines_of_join lines :
  lines <> [] -> forallb no_lf lines = true -> forallb normal lines = true ->
  lines_of (join LF lines) = lines.
Proof.
  intros Hne Hlf Hn. destruct lines as [|l ls]; [congruence|].
  unfold lines_of. rewrite (split_lf_join l ls Hlf).
  apply (forallb_map_id _ normal); [apply blank_to_empty_id | exact Hn].
Qed.

(** After [dedent] no common indentation is left. *)
Theorem dedent_leaves_no_margin (text : string) :
  no_margin (lines_of (dedent text)).
Proof.
  unfold dedent. fold (lines_of text).
  assert (Hne : lines_of text <> []).
  { unfold lines_of, split_lf.
    destruct (split_lf_from_cons EmptyString text) as [l [ls ->]]. discriminate. }
  assert (Hlf : forallb no_lf (lines_of text) = true).
  { unfold lines_of. apply forallb_map_impl; [apply blank_to_empty_no_lf|].
    now apply split_lf_from_no_lf. }
  assert (Hn : forallb normal (lines_of text) = true).
  { unfold lines_of. apply forallb_map. apply blank_to_empty_normal. }
  destruct (margin_of (lines_of text)) as [m|] eqn:Hm.
  - destruct (is_empty m) eqn:Hem.
    + rewrite (lines_of_join _ Hne Hlf Hn). unfold no_margin. rewrite Hm.
      now destruct m.
    + assert (Hm' : m <> EmptyString) by (intros ->; discriminate).
      destruct (margin_after_unindent m _ Hm' Hn Hm) as [Hmargin Hn'].
      rewrite lines_of_join.
      * unfold no_margin. now rewrite Hmargin.
      * destruct (lines_of text); [congruence|discriminate].
      * apply forallb_map_impl; [apply unindent_no_lf | exact Hlf].
      * exact Hn'.
  - rewrite (lines_of_join _ Hne Hlf Hn). unfold no_margin. now rewrite Hm.
Qed.

End TextwrapFacts.

(** * Properties of the bundler *)

Module BundlerFacts.

Import Py LocalClient StringFacts.

(** Joining a non-empty list and one more part puts one separator before
    the last part. *)
Lemma join_snoc (sep : string) (x : string) (parts : list string) (last : string) :
  join sep ((x :: parts) ++ [last]) = join sep (x :: parts) +:+ sep +:+ last.
Proof.
  revert x. induction parts as [|y parts IH]; intros x.
  - reflexivity.
  - change (join sep ((x :: y :: parts) ++ [last]))
      with (x +:+ sep +:+ join sep ((y :: parts) ++ [last])).
    rewrite IH.
    change (join sep (x :: y :: parts)) with (x +:+ sep +:+ join sep (y :: parts)).
    now rewrite !append_assoc.
Qed.

(** The loop removes a run of decorator lines from the front and nothing
    else. *)
Lemma pop_decorators_split (lines : list string) :
  exists removed,
    lines = removed ++ pop_decorators lines
    /\ forallb is_decorator_line removed = true.
Proof.
  induction lines as [|l rest [removed [Hsplit Hall]]].
  - exists []. split; reflexivity.
  - simpl. destruct (is_decorator_line l) eqn:Hl.
    + exists (l :: removed). split.
      * simpl. now rewrite <- Hsplit.
      * simpl. now rewrite Hl, Hall.
    + exists []. split; reflexivity.
Qed.

(** The loop stops at a line that is not a decorator line. *)
Lemma pop_decorators_head (lines : list string) :
  match pop_decorators lines with
  | [] => True
  | l :: _ => is_decorator_line l = false
  end.
Proof.
  induction lines as [|l rest IH]; simpl; [exact I|].
  destruct (is_decorator_line l) eqn:Hl; [exact IH | exact Hl].
Qed.

(** Lines behind the first line that is not a decorator line stay. *)
Lemma pop_decorators_keeps (removed : list string) (l : string)
    (rest : list string) :
  forallb is_decorator_line removed = true ->
  is_decorator_line l = false ->
  pop_decorators (removed ++ l :: rest) = l :: rest.
Proof.
  intros Hall Hl. induction removed as [|d removed IH]; simpl in *.
  - now rewrite Hl.
  - apply andb_prop in Hall as [Hd Hall]. rewrite Hd. now apply IH.
Qed.

Section Bundle.

Variables Obj World : Type.
Variable dedent : string -> string.

Local Abbreviation normalized := (normalized dedent).

(** Helpers are kept in the order in which they were registered. *)
Lemma registered_from (objs acc : list (callable Obj World)) :
  fold_left (fun exports obj => snd (remote_func obj exports)) objs acc
  = acc ++ objs.
Proof.
  revert acc. induction objs as [|obj objs IH]; intros acc; simpl.
  - now rewrite app_nil_r.
  - rewrite IH. now rewrite <- app_assoc.
Qed.

Lemma registered_in_order (objs : list (callable Obj World)) :
  registered objs = objs.
Proof. unfold registered. now rewrite registered_from. Qed.

Lemma dep_sources_available (exports : list (callable Obj World))
    (srcs : list string) :
  map fn_source exports = map Return srcs ->
  dep_sources dedent exports = Return (map normalized srcs).
Proof.
  revert srcs. induction exports as [|obj rest IH]; intros [|s srcs] H;
    simpl in H; try discriminate; [reflexivity|].
  injection H as Hobj Hrest. simpl. unfold fragment. rewrite Hobj.
  now rewrite (IH srcs Hrest).
Qed.

(** The bundle for any [dedent]: the helpers' fragments in the order of
    registration, a blank line between them, then a blank line and the
    entry function's fragment. *)
Lemma full_code_concat
    (func : callable Obj World) (helpers : list (callable Obj World))
    (func_src : string) (srcs : list string) :
  fn_source func = Return func_src ->
  map fn_source helpers = map Return srcs ->
  full_code dedent func (registered helpers)
  = Return (join (LF +:+ LF) (map normalized srcs)
            +:+ LF +:+ LF +:+ normalized func_src).
Proof.
  intros Hf Hs. rewrite registered_in_order.
  unfold full_code, fragment. rewrite Hf.
  now rewrite (dep_sources_available helpers srcs Hs).
Qed.

(** With a helper, that is the join of all fragments. *)
Lemma join_fragments (s : string) (srcs : list string) (func_src : string) :
  join (LF +:+ LF) (map normalized (s :: srcs))
  +:+ LF +:+ LF +:+ normalized func_src
  = join (LF +:+ LF) (map normalized ((s :: srcs) ++ [func_src])).
Proof.
  rewrite map_app.
  change (map normalized (s :: srcs) ++ map normalized [func_src])
    with ((normalized s :: map normalized srcs) ++ [normalized func_src]).
  rewrite (join_snoc (LF +:+ LF) (normalized s) (map normalized srcs)
             (normalized func_src)).
  now rewrite append_assoc.
Qed.


End Bundle.




(** A function defined inside another one: its fragment starts at the
    left margin. *)
Example nested_fragment_is_top_level :
  normalized Textwrap.dedent
    ("    @remote_func" +:+ LF +:+ "    def inner(x):" +:+ LF
     +:+ "        return x" +:+ LF)
  = "def inner(x):" +:+ LF +:+ "    return x".
Proof. vm_compute. reflexivity. Qed.

End BundlerFacts.

(** * Properties of the dispatcher *)

Module DispatcherFacts.

Import Py LocalClient.

Section Wrapper.

Variable Obj : Type.
Variable of_json : json -> Obj.
Variable py_repr : json -> string.
Variable World : Type.
Variable dedent : string -> string.
Variable requests_post :
  string -> payload Obj -> Z -> World -> outcome response * World.

Local Abbreviation wrapper := (wrapper of_json py_repr requests_post).
Local Abbreviation remote_path := (remote_path of_json py_repr requests_post).
Local Abbreviation interpret := (@interpret Obj of_json py_repr World).
Local Abbreviation echo := (echo py_repr).
Local Abbreviation echoed := (echoed py_repr).

(** The request the wrapper posts. *)
Local Abbreviation request_of rf args kwargs :=
  (Payload (rf_full_code rf) (fn_name (rf_func rf)) args kwargs).

(** On a dict, [echo] never raises. *)
Lemma echo_dict (flag : bool) (label : string)
    (fields : list (string * json)) (key : string) (out : string) :
  echo flag label (JObj fields) key out
  = (Return tt, echoed flag label fields key out).
Proof.
  unfold LocalClient.echo, LocalClient.echoed, bind, lift, ret, print,
    dict_get, getitem.
  destruct flag; simpl.
  - destruct (assoc key fields) as [v|]; simpl; [|reflexivity].
    destruct (truthy v); reflexivity.
  - destruct (assoc key fields); reflexivity.
Qed.

Lemma prefix_refl (s : string) : String.prefix s s = true.
Proof.
  induction s as [|c s IH]; [reflexivity|].
  simpl. destruct (Ascii.ascii_dec c c) as [_|Hne]; [exact IH|].
  now destruct Hne.
Qed.

(** A text occurs in every text that ends with it. *)
Lemma mentions_suffix (front s : string) : mentions s (front +:+ s) = true.
Proof.
  induction front as [|c front IH].
  - change (EmptyString +:+ s) with s.
    destruct s as [|c s]; [reflexivity|].
    unfold mentions; fold mentions. unfold startswith.
    now rewrite prefix_refl.
  - change (String c front +:+ s) with (String c (front +:+ s)).
    unfold mentions; fold mentions. rewrite IH. apply orb_true_r.
Qed.

Lemma wrapper_remote (rf : remote_fn Obj World) args kwargs
    (p : proc World) :
  _remote_enabled (environ p) = true ->
  wrapper rf args kwargs p = remote_path rf args kwargs p.
Proof. intros H. unfold LocalClient.wrapper. now rewrite H. Qed.

Lemma wrapper_local (rf : remote_fn Obj World) args kwargs
    (p : proc World) :
  _remote_enabled (environ p) = false ->
  wrapper rf args kwargs p = fn_call (rf_func rf) args kwargs p.
Proof. intros H. unfold LocalClient.wrapper. now rewrite H. Qed.

Lemma decorator_keeps_func c exports func (rf : remote_fn Obj World) :
  decorator dedent c exports func = Return rf -> rf_func rf = func.
Proof.
  unfold decorator. destruct (full_code dedent func exports); intros H;
    [|discriminate].
  injection H as <-. reflexivity.
Qed.

(** C1, as the code has it: on a dict body the wrapper returns the body's
    result exactly when the transport status is 200 and the body's status
    is "ok" (a missing result then raises [KeyError]); in every other case,
    a body with status "ok" under another transport status among them, it
    raises [RuntimeError] with the remote error text or "HTTP <status>". *)
Theorem wrapper_success_needs_200_and_ok
    (rf : remote_fn Obj World) args kwargs (p : proc World)
    (resp : response) (w : World) (fields : list (string * json)) :
  _remote_enabled (environ p) = true ->
  requests_post (rf_url rf) (request_of rf args kwargs) (rf_timeout rf)
    (world p) = (Return resp, w) ->
  resp_json resp = Some (JObj fields) ->
  let status := match assoc "status" fields with Some v => v | None => JNull end in
  let error := match assoc "error" fields with Some v => v | None => JNull end in
  let out1 :=
    echoed (rf_print_stdout rf) "[REMOTE STDOUT]" fields "stdout" (console p) in
  let out2 :=
    echoed (rf_print_traceback rf) "[REMOTE TRACEBACK]" fields "traceback" out1 in
  wrapper rf args kwargs p
  = if (status_code resp =? 200) && is_ok status then
      (match assoc "result" fields with
       | Some r => Return (of_json r)
       | None => Raise (KeyError (py_repr (JStr "result")))
       end, Proc (environ p) out1 w)
    else
      (Raise (RuntimeError
                ("Remote execution failed: "
                 +:+ (if truthy error then py_str py_repr error
                      else "HTTP " +:+ str_int (status_code resp)))),
       Proc (environ p) out2 w).
Proof.
  intros Hon Hpost Hjson status error out1 out2.
  rewrite (wrapper_remote _ _ _ _ Hon).
  unfold LocalClient.remote_path. rewrite Hpost.
  unfold LocalClient.interpret. rewrite Hjson.
  unfold bind at 1.
  destruct (status_code resp =? 200) eqn:Hcode.
  - unfold bind at 1, lift, dict_get, ret. fold status.
    destruct (is_ok status) eqn:Hok; simpl andb; cbv iota.
    + unfold bind at 1. rewrite echo_dict. fold out1.
      unfold bind, lift, getitem, ret.
      destruct (assoc "result" fields); reflexivity.
    + unfold bind at 1. rewrite echo_dict. fold out1.
      unfold bind at 1. rewrite echo_dict. fold out2.
      unfold bind, lift, dict_get, raise. reflexivity.
  - unfold ret at 1. simpl andb. cbv iota.
    unfold bind at 1. rewrite echo_dict. fold out1.
    unfold bind at 1. rewrite echo_dict. fold out2.
    unfold bind, lift, dict_get, raise. reflexivity.
Qed.

(** C8: when [resp.json()] raises, the wrapper raises [RuntimeError] whose
    message ends with the raw body text, so the text occurs in it; nothing
    is printed. *)
Theorem wrapper_non_json_body
    (rf : remote_fn Obj World) args kwargs (p : proc World)
    (resp : response) (w : World) :
  _remote_enabled (environ p) = true ->
  requests_post (rf_url rf) (request_of rf args kwargs) (rf_timeout rf)
    (world p) = (Return resp, w) ->
  resp_json resp = None ->
  let exc := RuntimeError ("Remote returned non-JSON body: " +:+ text resp) in
  wrapper rf args kwargs p = (Raise exc, Proc (environ p) (console p) w)
  /\ mentions (text resp) (exc_str exc) = true.
Proof.
  intros Hon Hpost Hjson exc. split.
  - rewrite (wrapper_remote _ _ _ _ Hon).
    unfold LocalClient.remote_path. rewrite Hpost.
    unfold LocalClient.interpret. rewrite Hjson. reflexivity.
  - apply mentions_suffix.
Qed.

(** C5: with remote execution disabled, calling the wrapper is calling the
    decorated function on the same arguments in the same process state:
    same value or same raised exception, same state afterwards. *)
Theorem wrapper_local_is_func
    cfg env exports (func : callable Obj World) (rf : remote_fn Obj World)
    args kwargs (p : proc World) :
  decorator dedent (remote_if_enabled cfg env) exports func = Return rf ->
  _remote_enabled (environ p) = false ->
  wrapper rf args kwargs p = fn_call func args kwargs p.
Proof.
  intros Hdec Hoff. rewrite (wrapper_local _ _ _ _ Hoff).
  now rewrite (decorator_keeps_func _ _ _ _ Hdec).
Qed.

Lemma remote_enabled_after_set (env : gmap string string) :
  _remote_enabled (<["USE_REMOTE_EXEC" := "1"]> env) = true.
Proof. unfold _remote_enabled, getenv. now rewrite lookup_insert_eq. Qed.

Lemma remote_disabled_after_unset (env : gmap string string) :
  _remote_enabled (delete "USE_REMOTE_EXEC" env) = false.
Proof. unfold _remote_enabled, getenv. now rewrite lookup_delete_eq. Qed.

(** C9: whatever the environment was when the function was decorated, each
    call takes the remote path exactly when USE_REMOTE_EXEC is truthy in the
    environment of the process at that call; setting the variable makes the
    next call remote, removing it makes the next call local. *)
Theorem remote_decision_at_call_time
    cfg env_at_decoration exports (func : callable Obj World)
    (rf : remote_fn Obj World) args kwargs (p : proc World) :
  decorator dedent (remote_if_enabled cfg env_at_decoration) exports func
  = Return rf ->
  wrapper rf args kwargs p
  = (if _remote_enabled (environ p) then remote_path rf args kwargs p
     else fn_call func args kwargs p)
  /\ (let p_on := Proc (<["USE_REMOTE_EXEC" := "1"]> (environ p))
                    (console p) (world p) in
      wrapper rf args kwargs p_on = remote_path rf args kwargs p_on)
  /\ (let p_off := Proc (delete "USE_REMOTE_EXEC" (environ p))
                     (console p) (world p) in
      wrapper rf args kwargs p_off = fn_call func args kwargs p_off).
Proof.
  intros Hdec. pose proof (decorator_keeps_func _ _ _ _ Hdec) as Hfunc.
  split; [|split].
  - unfold LocalClient.wrapper. rewrite Hfunc.
    destruct (_remote_enabled (environ p)); reflexivity.
  - intros p_on. apply wrapper_remote. apply remote_enabled_after_set.
  - intros p_off. rewrite <- Hfunc. apply wrapper_local.
    apply remote_disabled_after_unset.
Qed.

End Wrapper.

(** *** The theorems on the demo client *)

Lemma demo_decorated :
  Demo.decorator (remote_if_enabled Demo.my_settings Demo.remote_env)
    (registered [Demo.hello_world]) Demo.test = Return Demo.test_fn.
Proof. vm_compute. reflexivity. Qed.

(** C1 fails as stated: the body says "ok" and carries result 123, the
    transport status is 500, and the wrapper raises. *)
Lemma ok_body_under_status_500_raises :
  resp_json Demo.reply_ok_500
  = Some (JObj [("status", JStr "ok"); ("result", JNum 123);
                ("stdout", JStr EmptyString)])
  /\ fst (Demo.wrapper Demo.test_fn [] []
            (Proc Demo.remote_env EmptyString Demo.reply_ok_500))
     = Raise (RuntimeError "Remote execution failed: HTTP 500").
Proof. split; vm_compute; reflexivity. Qed.

Lemma wrapper_success_needs_200_and_ok_witness :
  Demo.wrapper Demo.test_fn [] []
    (Proc Demo.remote_env EmptyString Demo.reply_ok_200)
  = (Return (JNum 123),
     Proc Demo.remote_env
       ("[REMOTE STDOUT]" +:+ LF +:+ "Running remotely!" +:+ LF)
       Demo.reply_ok_200).
Proof.
  exact (wrapper_success_needs_200_and_ok json (fun j => j) Demo.repr
           response Demo.post Demo.test_fn [] []
           (Proc Demo.remote_env EmptyString Demo.reply_ok_200)
           Demo.reply_ok_200 Demo.reply_ok_200
           [("status", JStr "ok"); ("result", JNum 123);
            ("stdout", JStr ("Running remotely!" +:+ LF))]
           eq_refl eq_refl eq_refl).
Defined.

Lemma wrapper_non_json_body_witness :
  Demo.wrapper Demo.test_fn [] []
    (Proc Demo.remote_env EmptyString Demo.reply_html)
  = (Raise (RuntimeError
              "Remote returned non-JSON body: <html>Bad Gateway</html>"),
     Proc Demo.remote_env EmptyString Demo.reply_html).
Proof.
  exact (proj1 (wrapper_non_json_body json (fun j => j) Demo.repr response
                  Demo.post Demo.test_fn [] []
                  (Proc Demo.remote_env EmptyString Demo.reply_html)
                  Demo.reply_html Demo.reply_html eq_refl eq_refl eq_refl)).
Defined.

Lemma wrapper_local_is_func_witness :
  Demo.wrapper Demo.test_fn [JNum 1] [("k", JNum 2)]
    (Proc ∅ EmptyString Demo.reply_html)
  = (Return (JNum 123),
     Proc ∅ ("Running remotely!" +:+ LF) Demo.reply_html).
Proof.
  exact (wrapper_local_is_func json (fun j => j) Demo.repr response
           Textwrap.dedent Demo.post Demo.my_settings Demo.remote_env
           (registered [Demo.hello_world]) Demo.test Demo.test_fn
           [JNum 1] [("k", JNum 2)]
           (Proc ∅ EmptyString Demo.reply_html) demo_decorated eq_refl).
Defined.

Lemma remote_decision_at_call_time_witness :
  Demo.wrapper Demo.test_fn [] [] (Proc ∅ EmptyString Demo.reply_ok_200)
  = fn_call Demo.test [] [] (Proc ∅ EmptyString Demo.reply_ok_200)
  /\ Demo.wrapper Demo.test_fn [] []
       (Proc (<["USE_REMOTE_EXEC" := "1"]> ∅) EmptyString Demo.reply_ok_200)
     = remote_path (fun j => j) Demo.repr Demo.post Demo.test_fn [] []
         (Proc (<["USE_REMOTE_EXEC" := "1"]> ∅) EmptyString
            Demo.reply_ok_200).
Proof.
  pose (p := Proc (∅ : gmap string string) EmptyString Demo.reply_ok_200).
  destruct (remote_decision_at_call_time json (fun j => j) Demo.repr response
              Textwrap.dedent Demo.post Demo.my_settings Demo.remote_env
              (registered [Demo.hello_world]) Demo.test Demo.test_fn [] [] p
              demo_decorated) as [H [Hon _]].
  split; [exact H | exact Hon].
Defined.

End DispatcherFacts.

(** * Properties of the executor *)

Module ExecutorFacts.

Import Py App.

(** Case analysis on what a [match] of the goal inspects. *)
Ltac break_match :=
  match goal with
  | |- context [match ?scrutinee with _ => _ end] => destruct scrutinee eqn:?
  end.

Section Handler.

Variable Obj : Type.
Variable World : Type.
Variable py_repr : json -> string.
Variable py_exec : string -> gmap string Obj -> World -> run World (gmap string Obj).
Variable py_call : Obj -> json -> json -> World -> run World Obj.
Variable serialize : Obj -> option json.
Variable type_name : Obj -> string.
Variable format_exc : pyexc -> string.

Local Abbreviation exec_code :=
  (exec_code Obj World py_repr py_exec py_call serialize type_name format_exc).
Local Abbreviation try_block :=
  (try_block Obj World py_repr py_exec py_call serialize type_name).
Local Abbreviation error_body := (error_body format_exc).
Local Abbreviation console_output :=
  (console_output Obj World py_repr py_exec py_call).
Local Abbreviation no_external_effects :=
  (no_external_effects Obj World py_exec py_call).

Local Abbreviation handled := (except_Exception format_exc).

Lemma append_empty_l (s : string) : EmptyString +:+ s = s.
Proof. reflexivity. Qed.

(** The handler on a well-formed request, step by step. *)
Lemma exec_code_steps (src name : string) (args kwargs : json) (w : World) :
  let r1 := py_exec src ∅ w in
  exec_code (post_body src name args kwargs) w
  = match result r1 with
    | Raise exc => (handled exc (written r1), after r1)
    | Return env =>
        match env !! name with
        | None =>
            (Reply 500 (error_body (KeyError (py_repr (JStr name)))
                          (written r1)), after r1)
        | Some f =>
            let r2 := py_call f args kwargs (after r1) in
            let out := written r1 +:+ written r2 in
            match result r2 with
            | Raise exc => (handled exc out, after r2)
            | Return res =>
                match serialize res with
                | Some j => (Reply 200 (ok_body j out), after r2)
                | None =>
                    (Reply 500
                       (error_body
                          (TypeError ("Object of type " +:+ type_name res
                                      +:+ " is not JSON serializable"))
                          out), after r2)
                end
            end
        end
    end.
Proof.
  intros r1. unfold App.exec_code, App.try_block, post_body.
  cbn [get_json lift bind getitem dict_get_default assoc String.eqb
       Ascii.eqb Bool.eqb redirect builtin_exec stdout_buf hworld].
  fold r1. rewrite append_empty_l.
  destruct (result r1) as [env|exc]; [|reflexivity].
  cbn [env_lookup]. destruct (env !! name) as [f|]; [|reflexivity].
  cbn [redirect stdout_buf hworld].
  destruct (result (py_call f args kwargs (after r1))) as [res|exc];
    [|reflexivity].
  unfold jsonify_ok. cbn [stdout_buf].
  destruct (serialize res); reflexivity.
Qed.


(** The buffer the handler ends with holds what the steps wrote. *)
Lemma try_block_stdout (req : request) (w : World) :
  stdout_buf (snd (try_block req (HState EmptyString w)))
  = console_output req w.
Proof.
  unfold App.try_block, App.console_output.
  destruct req as [why|payload]; [reflexivity|].
  destruct payload as [| | | |items|fields]; try reflexivity.
  cbn [get_json lift bind getitem dict_get_default].
  destruct (assoc "code" fields) as [code|]; [|reflexivity].
  destruct (assoc "func_name" fields) as [func_name|]; [|reflexivity].
  unfold bind, lift, redirect. cbn [stdout_buf hworld].
  rewrite append_empty_l.
  destruct (result (builtin_exec Obj World py_exec code ∅ w)) as [env|exc];
    [|reflexivity].
  destruct (env_lookup Obj py_repr env func_name) as [f|exc]; [|reflexivity].
  destruct (result (py_call f _ _ _)); reflexivity.
Qed.

(** A successful [try] block yields the success body. *)
Lemma try_block_returns_ok_body (req : request) (st0 st : hstate World)
    (body : json) :
  try_block req st0 = (Return body, st) ->
  exists j, body = ok_body j (stdout_buf st).
Proof.
  unfold App.try_block, bind, lift, redirect, jsonify_ok.
  repeat break_match; intros H; try discriminate.
  injection H as <- <-. eexists. reflexivity.
Qed.




(** Without external effects the handler leaves the world as it was. *)
Lemma exec_code_world (src name : string) (args kwargs : json) (w : World) :
  no_external_effects src name args kwargs w ->
  snd (exec_code (post_body src name args kwargs) w) = w.
Proof.
  intros [Hexec Hcall].
  pose proof (exec_code_steps src name args kwargs w) as H.
  cbv zeta in H. rewrite H. clear H.
  destruct (result (py_exec src ∅ w)) as [env|exc] eqn:Hr1;
    [|exact Hexec].
  destruct (env !! name) as [f|] eqn:Hname; [|exact Hexec].
  rewrite Hexec. specialize (Hcall env f eq_refl Hname).
  destruct (result (py_call f args kwargs w)) as [res|exc];
    [destruct (serialize res)|]; exact Hcall.
Qed.

(** C7: a bundle and a call without external effects get the same reply,
    result or error, when the request is handled a second time; the second
    evaluation starts from an empty namespace like the first. *)
Theorem exec_code_twice_same_outcome
    (src name : string) (args kwargs : json) (w : World) :
  no_external_effects src name args kwargs w ->
  let req := post_body src name args kwargs in
  let first := exec_code req w in
  let second := exec_code req (snd first) in
  fst second = fst first.
Proof.
  intros Hpure req first second. unfold second, first, req.
  now rewrite (exec_code_world src name args kwargs w Hpure).
Qed.

End Handler.

(** *** The theorems on the demo interpreter *)





Lemma demo_hi_no_external_effects (w : nat) :
  no_external_effects Demo.obj nat Demo.exec Demo.call Demo.src_hi "f"
    (JArr []) (JObj []) w.
Proof.
  split; [reflexivity|]. intros env f Henv Hf.
  vm_compute in Henv. injection Henv as <-.
  vm_compute in Hf. injection Hf as <-. reflexivity.
Qed.

Lemma exec_code_twice_same_outcome_witness :
  fst (Demo.exec_code (Demo.request_for Demo.src_hi)
         (snd (Demo.exec_code (Demo.request_for Demo.src_hi) 0%nat)))
  = fst (Demo.exec_code (Demo.request_for Demo.src_hi) 0%nat).
Proof.
  exact (exec_code_twice_same_outcome Demo.obj nat Demo.repr Demo.exec
           Demo.call Demo.serialize Demo.type_name Demo.format_exc
           Demo.src_hi "f" (JArr []) (JObj []) 0%nat
           (demo_hi_no_external_effects 0%nat)).
Defined.

(** The hypothesis of C7 is needed: the program that appends to a file and
    returns the file's length answers 1, then 2. *)
Lemma log_program_is_not_idempotent :
  fst (Demo.exec_code (Demo.request_for Demo.src_log) 0%nat)
  = Reply 200 (ok_body (JNum 1) EmptyString)
  /\ fst (Demo.exec_code (Demo.request_for Demo.src_log)
            (snd (Demo.exec_code (Demo.request_for Demo.src_log) 0%nat)))
     = Reply 200 (ok_body (JNum 2) EmptyString).
Proof. split; vm_compute; reflexivity. Qed.

End ExecutorFacts.

(** * Further properties of the dispatcher *)

Module DispatcherExtras.

Import Py LocalClient Shapes StringFacts.

Section Remote.

Variable Obj : Type.
Variable of_json : json -> Obj.
Variable py_repr : json -> string.
Variable World : Type.
Variable dedent : string -> string.
Variable requests_post :
  string -> payload Obj -> Z -> World -> outcome response * World.

Local Abbreviation wrapper := (wrapper of_json py_repr requests_post).
Local Abbreviation remote_path := (remote_path of_json py_repr requests_post).
Local Abbreviation interpret := (@interpret Obj of_json py_repr World).
Local Abbreviation echoed := (echoed py_repr).
Local Abbreviation request_of rf args kwargs :=
  (Payload (rf_full_code rf) (fn_name (rf_func rf)) args kwargs).

(** The wrapper's reading of a dict body, in closed form. *)
Lemma interpret_on_dict (rf : remote_fn Obj World) (resp : response)
    (fields : list (string * json)) (out : string) :
  resp_json resp = Some (JObj fields) ->
  let status := match assoc "status" fields with Some v => v | None => JNull end in
  let error := match assoc "error" fields with Some v => v | None => JNull end in
  let out1 := echoed (rf_print_stdout rf) "[REMOTE STDOUT]" fields "stdout" out in
  let out2 :=
    echoed (rf_print_traceback rf) "[REMOTE TRACEBACK]" fields "traceback" out1 in
  interpret rf resp out
  = if (status_code resp =? 200) && is_ok status then
      (match assoc "result" fields with
       | Some r => Return (of_json r)
       | None => Raise (KeyError (py_repr (JStr "result")))
       end, out1)
    else
      (Raise (RuntimeError
                ("Remote execution failed: "
                 +:+ (if truthy error then py_str py_repr error
                      else "HTTP " +:+ str_int (status_code resp)))), out2).
Proof.
  intros Hjson status error out1 out2.
  unfold LocalClient.interpret. rewrite Hjson.
  assert (Hfail :
    bind (echo py_repr (rf_print_stdout rf) "[REMOTE STDOUT]" (JObj fields) "stdout")
      (fun _ =>
         bind (echo py_repr (rf_print_traceback rf) "[REMOTE TRACEBACK]"
                 (JObj fields) "traceback")
           (fun _ =>
              bind (lift (dict_get (JObj fields) "error"))
                (fun e =>
                   raise (A := Obj)
                     (RuntimeError
                        ("Remote execution failed: "
                         +:+ (if truthy e then py_str py_repr e
                              else "HTTP " +:+ str_int (status_code resp)))))))
      out
    = (Raise (RuntimeError
                ("Remote execution failed: "
                 +:+ (if truthy error then py_str py_repr error
                      else "HTTP " +:+ str_int (status_code resp)))), out2)).
  { unfold bind at 1. rewrite DispatcherFacts.echo_dict. fold out1.
    unfold bind at 1. rewrite DispatcherFacts.echo_dict. fold out2.
    reflexivity. }
  unfold bind at 1.
  destruct (status_code resp =? 200); cbn [andb].
  - unfold bind at 1, lift, dict_get, ret. fold status.
    destruct (is_ok status); [|exact Hfail].
    unfold bind at 1. rewrite DispatcherFacts.echo_dict. fold out1.
    unfold bind, lift, getitem, ret.
    destruct (assoc "result" fields); reflexivity.
  - unfold ret at 1. exact Hfail.
Qed.

(** The wrapper's reading of a JSON body that is no dict: the first
    [data.get] it reaches raises, before anything is printed. *)
Lemma interpret_on_non_dict (rf : remote_fn Obj World) (resp : response)
    (data : json) (out : string) :
  resp_json resp = Some data ->
  is_dict data = false ->
  interpret rf resp out = (Raise (no_get data), out).
Proof.
  intros Hjson Hdict. unfold LocalClient.interpret. rewrite Hjson.
  assert (Hget : forall key, dict_get data key = Raise (no_get data)).
  { intros key. destruct data; try reflexivity. discriminate. }
  unfold bind at 1.
  destruct (status_code resp =? 200).
  - unfold bind, lift. now rewrite Hget.
  - unfold ret at 1. unfold bind, echo, lift.
    destruct (rf_print_stdout rf); [now rewrite Hget|]. unfold ret.
    destruct (rf_print_traceback rf); now rewrite Hget.
Qed.

Lemma remote_path_on_response (rf : remote_fn Obj World) args kwargs
    (p : proc World) (resp : response) (w : World) :
  requests_post (rf_url rf) (request_of rf args kwargs) (rf_timeout rf)
    (world p) = (Return resp, w) ->
  remote_path rf args kwargs p
  = (fst (interpret rf resp (console p)),
     Proc (environ p) (snd (interpret rf resp (console p))) w).
Proof.
  intros Hpost. unfold LocalClient.remote_path. rewrite Hpost.
  now destruct (interpret rf resp (console p)).
Qed.

(** X1: a body that decodes to JSON other than a dict (a list, a number,
    null) makes the call raise [AttributeError], whatever the transport
    status and the echo settings; nothing is printed. *)
Theorem wrapper_attribute_error_on_non_dict_body
    (rf : remote_fn Obj World) args kwargs (p : proc World)
    (resp : response) (w : World) (data : json) :
  _remote_enabled (environ p) = true ->
  requests_post (rf_url rf) (request_of rf args kwargs) (rf_timeout rf)
    (world p) = (Return resp, w) ->
  resp_json resp = Some data ->
  is_dict data = false ->
  wrapper rf args kwargs p
  = (Raise (AttributeError
              ("'" +:+ type_name_json data
               +:+ "' object has no attribute 'get'")),
     Proc (environ p) (console p) w).
Proof.
  intros Hon Hpost Hjson Hdict.
  rewrite DispatcherFacts.wrapper_remote by exact Hon.
  rewrite (remote_path_on_response _ _ _ _ _ _ Hpost).
  now rewrite (interpret_on_non_dict rf resp data _ Hjson Hdict).
Qed.

(** X2: a remote call returns a value only if the transport status is 200
    and the body is a dict whose status is "ok" and that has a result; the
    value is then that result. *)
Theorem wrapper_returns_only_on_200_ok
    (rf : remote_fn Obj World) args kwargs (p q : proc World) (v : Obj) :
  _remote_enabled (environ p) = true ->
  wrapper rf args kwargs p = (Return v, q) ->
  exists resp fields r,
    fst (requests_post (rf_url rf) (request_of rf args kwargs)
           (rf_timeout rf) (world p)) = Return resp
    /\ status_code resp = 200
    /\ resp_json resp = Some (JObj fields)
    /\ assoc "status" fields = Some (JStr "ok")
    /\ assoc "result" fields = Some r
    /\ v = of_json r.
Proof.
  intros Hon. rewrite DispatcherFacts.wrapper_remote by exact Hon.
  destruct (requests_post (rf_url rf) (request_of rf args kwargs)
              (rf_timeout rf) (world p)) as [[resp|e] w] eqn:Hpost.
  2: { unfold LocalClient.remote_path. rewrite Hpost. discriminate. }
  rewrite (remote_path_on_response _ _ _ _ _ _ Hpost).
  destruct (resp_json resp) as [data|] eqn:Hjson.
  2: { unfold LocalClient.interpret. rewrite Hjson. discriminate. }
  destruct (is_dict data) eqn:Hdict.
  2: { rewrite (interpret_on_non_dict rf resp data _ Hjson Hdict).
       discriminate. }
  destruct data as [| | | | |fields]; try discriminate.
  rewrite (interpret_on_dict rf resp fields _ Hjson).
  destruct (status_code resp =? 200) eqn:Hcode; cbn [andb]; [|discriminate].
  destruct (assoc "status" fields) as [st|] eqn:Hst; [|discriminate].
  destruct (is_ok st) eqn:Hok; [|discriminate].
  destruct (assoc "result" fields) as [r|] eqn:Hres; [|discriminate].
  cbn [fst]. intros H. injection H as <- _.
  exists resp, fields, r. cbn [fst].
  repeat split; try assumption; try reflexivity.
  - now apply Z.eqb_eq.
  - destruct st; try discriminate. cbn [is_ok] in Hok.
    apply String.eqb_eq in Hok. now subst.
Qed.

Lemma echoed_extends (flag : bool) (label : string)
    (fields : list (string * json)) (key : string) (out : string) :
  exists suffix,
    echoed flag label fields key out = out +:+ suffix
    /\ (flag = false -> suffix = EmptyString).
Proof.
  unfold LocalClient.echoed.
  destruct (assoc key fields) as [v|].
  - destruct (flag && truthy v) eqn:Hf.
    + exists ((label +:+ LF) +:+ py_str py_repr v). split.
      * now rewrite <- !append_assoc.
      * intros ->. discriminate.
    + exists EmptyString. split; [now rewrite append_empty_r | reflexivity].
  - exists EmptyString. split; [now rewrite append_empty_r | reflexivity].
Qed.

(** X3: whatever the network answers, a remote call leaves [os.environ]
    as it was and only adds to the local console; with both echo settings
    off it prints nothing. *)
Theorem remote_path_only_appends_to_console
    (rf : remote_fn Obj World) args kwargs (p : proc World) :
  let q := snd (remote_path rf args kwargs p) in
  environ q = environ p
  /\ exists suffix,
       console q = console p +:+ suffix
       /\ (rf_print_stdout rf = false -> rf_print_traceback rf = false ->
           suffix = EmptyString).
Proof.
  intros q. subst q.
  assert (Hsame : exists suffix,
            console p = console p +:+ suffix
            /\ (rf_print_stdout rf = false -> rf_print_traceback rf = false ->
                suffix = EmptyString)).
  { exists EmptyString. split; [now rewrite append_empty_r | reflexivity]. }
  destruct (requests_post (rf_url rf) (request_of rf args kwargs)
              (rf_timeout rf) (world p)) as [[resp|e] w] eqn:Hpost.
  2: { unfold LocalClient.remote_path. rewrite Hpost. cbn. now split. }
  rewrite (remote_path_on_response _ _ _ _ _ _ Hpost). cbn [snd environ console].
  split; [reflexivity|].
  destruct (resp_json resp) as [data|] eqn:Hjson.
  2: { unfold LocalClient.interpret. rewrite Hjson. exact Hsame. }
  destruct (is_dict data) eqn:Hdict.
  2: { now rewrite (interpret_on_non_dict rf resp data _ Hjson Hdict). }
  destruct data as [| | | | |fields]; try discriminate.
  rewrite (interpret_on_dict rf resp fields _ Hjson).
  destruct (echoed_extends (rf_print_stdout rf) "[REMOTE STDOUT]" fields
              "stdout" (console p)) as [s1 [H1 Hoff1]].
  destruct (echoed_extends (rf_print_traceback rf) "[REMOTE TRACEBACK]" fields
              "traceback"
              (echoed (rf_print_stdout rf) "[REMOTE STDOUT]" fields "stdout"
                 (console p))) as [s2 [H2 Hoff2]].
  match goal with |- context [if ?c then _ else _] => destruct c end;
    cbn [snd].
  - exists s1. split; [exact H1|]. intros Ha _. now apply Hoff1.
  - exists (s1 +:+ s2). split.
    + rewrite H2, H1. now rewrite append_assoc.
    + intros Ha Hb. now rewrite (Hoff1 Ha), (Hoff2 Hb).
Qed.

(** X4: an exception of [requests.post] (no connection, timeout) leaves
    the wrapper as it was raised; it is not turned into [RuntimeError],
    nothing is printed and no second request is made. *)
Theorem wrapper_transport_error_propagates
    (rf : remote_fn Obj World) args kwargs (p : proc World)
    (exc : pyexc) (w : World) :
  _remote_enabled (environ p) = true ->
  requests_post (rf_url rf) (request_of rf args kwargs) (rf_timeout rf)
    (world p) = (Raise exc, w) ->
  wrapper rf args kwargs p = (Raise exc, Proc (environ p) (console p) w).
Proof.
  intros Hon Hpost.
  rewrite DispatcherFacts.wrapper_remote by exact Hon.
  unfold LocalClient.remote_path. now rewrite Hpost.
Qed.

Lemma remote_enabled_other_variable (env : gmap string string)
    (name value : string) :
  name <> "USE_REMOTE_EXEC" ->
  _remote_enabled (<[name := value]> env) = _remote_enabled env.
Proof.
  intros Hne. unfold _remote_enabled, getenv.
  now rewrite lookup_insert_ne.
Qed.


(** X6: the executor's success reply, read by the wrapper: the call returns
    the reply's result; the captured output is printed under its header
    when the setting is on and the output is not empty. *)
Theorem wrapper_on_executor_success
    (rf : remote_fn Obj World) args kwargs (p : proc World)
    (resp : response) (w : World) (fields : list (string * json))
    (j : json) (out : string) :
  _remote_enabled (environ p) = true ->
  requests_post (rf_url rf) (request_of rf args kwargs) (rf_timeout rf)
    (world p) = (Return resp, w) ->
  status_code resp = 200 ->
  resp_json resp = Some (JObj fields) ->
  same_items fields (items (App.ok_body j out)) ->
  wrapper rf args kwargs p
  = (Return (of_json j),
     Proc (environ p)
       (shown (rf_print_stdout rf) "[REMOTE STDOUT]" out (console p)) w).
Proof.
  intros Hon Hpost Hcode Hjson Hsame.
  rewrite DispatcherFacts.wrapper_remote by exact Hon.
  rewrite (remote_path_on_response _ _ _ _ _ _ Hpost).
  rewrite (interpret_on_dict rf resp fields _ Hjson).
  unfold LocalClient.echoed.
  rewrite (Hsame "status"), (Hsame "result"), (Hsame "stdout"), Hcode.
  reflexivity.
Qed.

(** X7: the executor's failure reply, read by the wrapper: the call raises
    [RuntimeError] with the remote [str(exc)], or with "HTTP 500" when that
    text is empty; before that the captured output and then the trace are
    printed under their headers, each when its setting is on and it is not
    empty. *)
Theorem wrapper_on_executor_failure
    (format_exc : pyexc -> string)
    (rf : remote_fn Obj World) args kwargs (p : proc World)
    (resp : response) (w : World) (fields : list (string * json))
    (exc : pyexc) (out : string) :
  _remote_enabled (environ p) = true ->
  requests_post (rf_url rf) (request_of rf args kwargs) (rf_timeout rf)
    (world p) = (Return resp, w) ->
  status_code resp = 500 ->
  resp_json resp = Some (JObj fields) ->
  same_items fields (items (App.error_body format_exc exc out)) ->
  wrapper rf args kwargs p
  = (Raise (RuntimeError
              ("Remote execution failed: "
               +:+ (if String.eqb (exc_str exc) EmptyString then "HTTP 500"
                    else exc_str exc))),
     Proc (environ p)
       (shown (rf_print_traceback rf) "[REMOTE TRACEBACK]" (format_exc exc)
          (shown (rf_print_stdout rf) "[REMOTE STDOUT]" out (console p)))
       w).
Proof.
  intros Hon Hpost Hcode Hjson Hsame.
  rewrite DispatcherFacts.wrapper_remote by exact Hon.
  rewrite (remote_path_on_response _ _ _ _ _ _ Hpost).
  rewrite (interpret_on_dict rf resp fields _ Hjson).
  unfold LocalClient.echoed.
  rewrite (Hsame "error"), (Hsame "stdout"), (Hsame "traceback"), Hcode.
  cbn [items App.error_body assoc String.eqb Ascii.eqb Bool.eqb andb fst snd
       truthy py_str].
  change (500 =? 200) with false. cbn [andb fst snd].
  unfold shown. destruct (String.eqb (exc_str exc) EmptyString); reflexivity.
Qed.

(** X8: the endpoint of a decorated function is the explicit [remote_url]
    when that is a non-empty text; otherwise it is REMOTE_EXEC_URL as the
    environment had it when [remote_if_enabled] ran, the empty text
    included, and http://localhost:5005/exec when the variable was unset. *)
Theorem decorated_endpoint_precedence
    (cfg : settings) (env : gmap string string)
    (exports : list (callable Obj World)) (func : callable Obj World)
    (rf : remote_fn Obj World) :
  decorator dedent (remote_if_enabled cfg env) exports func = Return rf ->
  rf_url rf
  = match remote_url cfg, env !! "REMOTE_EXEC_URL" with
    | Some (String c u), _ => String c u
    | _, Some from_env => from_env
    | _, None => "http://localhost:5005/exec"
    end.
Proof.
  unfold decorator. destruct (full_code dedent func exports); [|discriminate].
  intros H. injection H as <-. cbn [rf_url].
  unfold remote_if_enabled, getenv. cbn [c_remote_url].
  destruct (remote_url cfg) as [[|c u]|]; reflexivity.
Qed.

(** X9: decoration fails when a source cannot be had: with the exception
    of [inspect.getsource] for the entry function, whatever the helpers;
    else with that of the first helper without source.  No wrapper is
    built. *)
Theorem decorator_raises_when_source_missing
    (c : closure) (func : callable Obj World) (exc : pyexc) :
  (forall exports,
     fn_source func = Raise exc ->
     decorator dedent c exports func = Raise exc)
  /\ (forall src before helper after srcs,
        fn_source func = Return src ->
        map fn_source before = map Return srcs ->
        fn_source helper = Raise exc ->
        decorator dedent c (before ++ helper :: after) func = Raise exc).
Proof.
  split.
  - intros exports Hf. unfold decorator, full_code, fragment. now rewrite Hf.
  - intros src before helper after srcs Hf Hbefore Hh.
    unfold decorator, full_code, fragment at 1. rewrite Hf.
    assert (Hdeps : dep_sources dedent (before ++ helper :: after) = Raise exc).
    { revert srcs Hbefore. induction before as [|b before IH];
        intros [|s srcs] Hb; try discriminate.
      - cbn [app dep_sources]. unfold fragment. now rewrite Hh.
      - injection Hb as Hb Hrest. cbn [app dep_sources].
        unfold fragment at 1. rewrite Hb. now rewrite (IH srcs Hrest). }
    now rewrite Hdeps.
Qed.

End Remote.

(** X10: a call consults the network at most once: never when remote
    execution is off, and when it is on only for the one request built from
    the bundle, the function's name and the arguments.  Two networks that
    agree on that request give the same call. *)
Theorem wrapper_makes_one_request
    (Obj : Type) (of_json : json -> Obj) (py_repr : json -> string)
    (World : Type)
    (post1 post2 :
       string -> payload Obj -> Z -> World -> outcome response * World)
    (rf : remote_fn Obj World) args kwargs (p : proc World) :
  (_remote_enabled (environ p) = true ->
   post1 (rf_url rf)
     (Payload (rf_full_code rf) (fn_name (rf_func rf)) args kwargs)
     (rf_timeout rf) (world p)
   = post2 (rf_url rf)
       (Payload (rf_full_code rf) (fn_name (rf_func rf)) args kwargs)
       (rf_timeout rf) (world p)) ->
  wrapper of_json py_repr post1 rf args kwargs p
  = wrapper of_json py_repr post2 rf args kwargs p.
Proof.
  intros H. unfold wrapper.
  destruct (_remote_enabled (environ p)); [|reflexivity].
  cbn [negb]. unfold remote_path. now rewrite (H eq_refl).
Qed.

(** *** The further properties on the demo client *)

Lemma sorted_ok_same_items (result : json) (out : string) :
  same_items
    [("result", result); ("status", JStr "ok"); ("stdout", JStr out)]
    (items (App.ok_body result out)).
Proof.
  intros k. cbn [items App.ok_body assoc].
  destruct (String.eqb_spec k "status") as [->|_]; [reflexivity|].
  destruct (String.eqb_spec k "result") as [->|_]; reflexivity.
Qed.

Lemma wrapper_attribute_error_on_non_dict_body_witness :
  Demo.wrapper Demo.test_fn [] []
    (Proc Demo.remote_env EmptyString Cases.reply_list)
  = (Raise (AttributeError "'list' object has no attribute 'get'"),
     Proc Demo.remote_env EmptyString Cases.reply_list).
Proof.
  exact (wrapper_attribute_error_on_non_dict_body json (fun j => j)
           Demo.repr response Demo.post Demo.test_fn [] []
           (Proc Demo.remote_env EmptyString Cases.reply_list)
           Cases.reply_list Cases.reply_list (JArr [JNum 1; JNum 2])
           eq_refl eq_refl eq_refl eq_refl).
Defined.

Lemma wrapper_returns_only_on_200_ok_witness :
  exists resp fields r,
    fst (Demo.post "http://127.0.0.1:5005/exec"
           (Payload (rf_full_code Demo.test_fn) "test" [] []) 30
           Demo.reply_ok_200) = Return resp
    /\ status_code resp = 200
    /\ resp_json resp = Some (JObj fields)
    /\ assoc "status" fields = Some (JStr "ok")
    /\ assoc "result" fields = Some r
    /\ JNum 123 = r.
Proof.
  exact (wrapper_returns_only_on_200_ok json (fun j => j) Demo.repr response
           Demo.post Demo.test_fn [] []
           (Proc Demo.remote_env EmptyString Demo.reply_ok_200)
           (Proc Demo.remote_env
              ("[REMOTE STDOUT]" +:+ LF +:+ "Running remotely!" +:+ LF)
              Demo.reply_ok_200)
           (JNum 123) eq_refl eq_refl).
Defined.

Lemma wrapper_transport_error_propagates_witness :
  LocalClient.wrapper (fun j => j) Demo.repr Cases.post_down Demo.test_fn
    [] [] (Proc Demo.remote_env EmptyString Demo.reply_ok_200)
  = (Raise Cases.ConnectionError,
     Proc Demo.remote_env EmptyString Demo.reply_ok_200).
Proof.
  exact (wrapper_transport_error_propagates json (fun j => j) Demo.repr
           response Cases.post_down Demo.test_fn [] []
           (Proc Demo.remote_env EmptyString Demo.reply_ok_200)
           Cases.ConnectionError Demo.reply_ok_200 eq_refl eq_refl).
Defined.


Lemma wrapper_on_executor_success_witness :
  Demo.wrapper Demo.test_fn [] []
    (Proc Demo.remote_env EmptyString Cases.reply_sorted_ok)
  = (Return (JNum 0),
     Proc Demo.remote_env
       ("[REMOTE STDOUT]" +:+ LF +:+ "loading" +:+ LF +:+ "hi" +:+ LF)
       Cases.reply_sorted_ok).
Proof.
  exact (wrapper_on_executor_success json (fun j => j) Demo.repr response
           Demo.post Demo.test_fn [] []
           (Proc Demo.remote_env EmptyString Cases.reply_sorted_ok)
           Cases.reply_sorted_ok Cases.reply_sorted_ok _ (JNum 0)
           ("loading" +:+ LF +:+ "hi" +:+ LF)
           eq_refl eq_refl eq_refl eq_refl
           (sorted_ok_same_items (JNum 0) ("loading" +:+ LF +:+ "hi" +:+ LF))).
Defined.

Lemma wrapper_on_executor_failure_witness :
  Demo.wrapper Demo.test_fn [] []
    (Proc Demo.remote_env EmptyString Cases.reply_div)
  = (Raise (RuntimeError "Remote execution failed: division by zero"),
     Proc Demo.remote_env
       ("[REMOTE STDOUT]" +:+ LF +:+ "before" +:+ LF
        +:+ "[REMOTE TRACEBACK]" +:+ LF
        +:+ "Traceback (most recent call last):" +:+ LF
        +:+ "ZeroDivisionError: division by zero" +:+ LF)
       Cases.reply_div).
Proof.
  exact (wrapper_on_executor_failure json (fun j => j) Demo.repr response
           Demo.post Demo.format_exc Demo.test_fn [] []
           (Proc Demo.remote_env EmptyString Cases.reply_div)
           Cases.reply_div Cases.reply_div _ Demo.ZeroDivisionError
           ("before" +:+ LF) eq_refl eq_refl eq_refl eq_refl
           (fun k => eq_refl)).
Defined.

Lemma decorated_endpoint_precedence_witness :
  rf_url Demo.test_fn = "http://127.0.0.1:5005/exec".
Proof.
  exact (decorated_endpoint_precedence json response Textwrap.dedent
           Demo.my_settings Demo.remote_env (registered [Demo.hello_world])
           Demo.test Demo.test_fn DispatcherFacts.demo_decorated).
Defined.

Lemma decorator_raises_when_source_missing_witness :
  Demo.decorator (remote_if_enabled default_settings ∅) [Demo.hello_world]
    Cases.typed_at_prompt = Raise Cases.OSError
  /\ Demo.decorator (remote_if_enabled default_settings ∅)
       ([Demo.hello_world] ++ Cases.typed_at_prompt :: [Demo.jobs]) Demo.test
     = Raise Cases.OSError.
Proof.
  split.
  - exact (proj1 (decorator_raises_when_source_missing json response
                    Textwrap.dedent (remote_if_enabled default_settings ∅)
                    Cases.typed_at_prompt Cases.OSError)
             [Demo.hello_world] eq_refl).
  - exact (proj2 (decorator_raises_when_source_missing json response
                    Textwrap.dedent (remote_if_enabled default_settings ∅)
                    Demo.test Cases.OSError)
             Demo.test_src [Demo.hello_world] Cases.typed_at_prompt
             [Demo.jobs] [Demo.hello_world_src] eq_refl eq_refl eq_refl).
Defined.

Lemma wrapper_makes_one_request_witness :
  Demo.wrapper Demo.test_fn [] []
    (Proc Demo.remote_env EmptyString Demo.reply_ok_200)
  = LocalClient.wrapper (fun j => j) Demo.repr Cases.post_only_test
      Demo.test_fn [] [] (Proc Demo.remote_env EmptyString Demo.reply_ok_200).
Proof.
  exact (wrapper_makes_one_request json (fun j => j) Demo.repr response
           Demo.post Cases.post_only_test Demo.test_fn [] []
           (Proc Demo.remote_env EmptyString Demo.reply_ok_200)
           (fun _ => eq_refl)).
Defined.

End DispatcherExtras.

(** * Further properties of the executor *)

Module ExecutorExtras.

Import Py App Shapes.

Section Handler.

Variable Obj : Type.
Variable World : Type.
Variable py_repr : json -> string.
Variable py_exec : string -> gmap string Obj -> World -> run World (gmap string Obj).
Variable py_call : Obj -> json -> json -> World -> run World Obj.
Variable serialize : Obj -> option json.
Variable type_name : Obj -> string.
Variable format_exc : pyexc -> string.

Local Abbreviation exec_code :=
  (exec_code Obj World py_repr py_exec py_call serialize type_name format_exc).
Local Abbreviation error_body := (error_body format_exc).

(** X11: a request without a dict payload, without "code" or "func_name",
    or with a "code" that is no text is answered with status 500 and empty
    stdout, and nothing is evaluated: the world stays as it was.  A payload
    with code but no "func_name" is among them. *)
Theorem exec_code_evaluates_nothing_without_code
    (req : request) (w : World) :
  has_code req = false ->
  exists exc,
    exc_is_Exception exc = true
    /\ exec_code req w = (Reply 500 (error_body exc EmptyString), w).
Proof.
  unfold has_code, App.exec_code, App.try_block.
  destruct req as [why|payload].
  { intros _. exists (BadRequest why). split; reflexivity. }
  destruct payload as [| | | |items|fields];
    try (intros _; eexists; split; [|reflexivity]; reflexivity).
  cbn [get_json bind lift getitem].
  destruct (assoc "code" fields) as [code|].
  2: { intros _. eexists. split; [|reflexivity]. reflexivity. }
  destruct (assoc "func_name" fields) as [func_name|].
  2: { intros _. eexists. split; [|reflexivity]. reflexivity. }
  destruct code; try discriminate;
    intros _; eexists; (split; [|reflexivity]); reflexivity.
Qed.

(** X12: of the payload the handler reads the keys "code", "func_name",
    "args" and "kwargs" only; absent "args" count as the empty list and
    absent "kwargs" as the empty dict. *)
Theorem exec_code_reads_four_keys
    (fields : list (string * json)) (code func_name : json) (w : World) :
  assoc "code" fields = Some code ->
  assoc "func_name" fields = Some func_name ->
  let args := match assoc "args" fields with Some v => v | None => JArr [] end in
  let kwargs := match assoc "kwargs" fields with Some v => v | None => JObj [] end in
  exec_code (Body (JObj fields)) w
  = exec_code (Body (JObj [("code", code); ("func_name", func_name);
                           ("args", args); ("kwargs", kwargs)])) w.
Proof.
  intros Hcode Hname args kwargs.
  unfold App.exec_code, App.try_block.
  cbn [get_json bind lift getitem dict_get_default assoc String.eqb
       Ascii.eqb Bool.eqb].
  rewrite Hcode, Hname. reflexivity.
Qed.

(** X13: when the bundle evaluates, the entry point is found and returns a
    value the encoder accepts, the reply is 200 with status "ok", that
    value, and as stdout what the top-level statements wrote followed by
    what the call wrote. *)
Theorem exec_code_success
    (src name : string) (args kwargs : json) (w : World)
    (env : gmap string Obj) (f res : Obj) (j : json) :
  let r1 := py_exec src ∅ w in
  let r2 := py_call f args kwargs (after r1) in
  result r1 = Return env ->
  env !! name = Some f ->
  result r2 = Return res ->
  serialize res = Some j ->
  exec_code (post_body src name args kwargs) w
  = (Reply 200 (ok_body j (written r1 +:+ written r2)), after r2).
Proof.
  intros r1 r2 Hr1 Hname Hr2 Hser.
  pose proof (ExecutorFacts.exec_code_steps Obj World py_repr py_exec py_call
                serialize type_name format_exc src name args kwargs w) as H.
  cbv zeta in H. fold r1 in H. rewrite Hr1, Hname in H. fold r2 in H.
  now rewrite Hr2, Hser in H.
Qed.

End Handler.

Lemma exec_code_evaluates_nothing_without_code_witness :
  exists exc,
    exc_is_Exception exc = true
    /\ Demo.exec_code (Body (JObj [("code", JStr Demo.src_log)])) 7%nat
       = (Reply 500 (error_body Demo.format_exc exc EmptyString), 7%nat).
Proof.
  exact (exec_code_evaluates_nothing_without_code Demo.obj nat Demo.repr
           Demo.exec Demo.call Demo.serialize Demo.type_name Demo.format_exc
           (Body (JObj [("code", JStr Demo.src_log)])) 7%nat eq_refl).
Defined.

Lemma exec_code_reads_four_keys_witness :
  Demo.exec_code
    (Body (JObj [("user", JStr "ada"); ("func_name", JStr "f");
                 ("code", JStr Demo.src_hi)])) 0%nat
  = Demo.exec_code (Demo.request_for Demo.src_hi) 0%nat.
Proof.
  exact (exec_code_reads_four_keys Demo.obj nat Demo.repr Demo.exec Demo.call
           Demo.serialize Demo.type_name Demo.format_exc
           [("user", JStr "ada"); ("func_name", JStr "f");
            ("code", JStr Demo.src_hi)]
           (JStr Demo.src_hi) (JStr "f") 0%nat eq_refl eq_refl).
Defined.

Lemma exec_code_success_witness :
  Demo.exec_code (Demo.request_for Demo.src_hi) 0%nat
  = (Reply 200 (ok_body (JNum 0) ("loading" +:+ LF +:+ "hi" +:+ LF)), 0%nat).
Proof.
  exact (exec_code_success Demo.obj nat Demo.repr Demo.exec Demo.call
           Demo.serialize Demo.type_name Demo.format_exc
           Demo.src_hi "f" (JArr []) (JObj []) 0%nat
           (<["f" := Demo.OPrintThen ("hi" +:+ LF) (Demo.OVal (JNum 0))]> ∅)
           (Demo.OPrintThen ("hi" +:+ LF) (Demo.OVal (JNum 0)))
           (Demo.OVal (JNum 0)) (JNum 0) eq_refl eq_refl eq_refl eq_refl).
Defined.

End ExecutorExtras.

(** * Further properties of the bundler and of the switch *)

Module BundlerExtras.

Import Py LocalClient Shapes StringFacts.

Lemma all_chars_app (P : ascii -> bool) (a b : string) :
  all_chars P (a +:+ b) = all_chars P a && all_chars P b.
Proof.
  induction a as [|x a IH]; [reflexivity|].
  change (String x a +:+ b) with (String x (a +:+ b)).
  cbn [all_chars]. rewrite IH. now rewrite andb_assoc.
Qed.

Lemma all_chars_weaken (P Q : ascii -> bool) (s : string) :
  (forall c, P c = true -> Q c = true) ->
  all_chars P s = true -> all_chars Q s = true.
Proof.
  intros HPQ. induction s as [|c s IH]; [reflexivity|]. cbn [all_chars].
  intros H. apply andb_prop in H as [Hc Hs]. now rewrite (HPQ c Hc), (IH Hs).
Qed.

Lemma not_boundary (c : ascii) :
  negb (is_boundary c) = true -> is_cr c = false /\ is_linebreak c = false.
Proof.
  unfold is_boundary. destruct (is_linebreak c), (is_cr c); cbn;
    intros H; try discriminate; now split.
Qed.

(** A text without line end in front of a text joins the line read so
    far. *)
Lemma splitlines_from_line (cur l s : string) :
  one_line l = true ->
  splitlines_from cur (l +:+ s) = splitlines_from (cur +:+ l) s.
Proof.
  revert cur. induction l as [|c l IH]; intros cur H.
  - now rewrite append_empty_r.
  - unfold one_line in H. cbn [all_chars] in H.
    apply andb_prop in H as [Hc Hl]. destruct (not_boundary c Hc) as [Hcr Hlb].
    change (String c l +:+ s) with (String c (l +:+ s)).
    cbn [splitlines_from]. rewrite Hcr, Hlb.
    rewrite (IH _ Hl). now rewrite append_assoc.
Qed.

(** Every line [splitlines] gives is free of line ends. *)
Lemma splitlines_from_one_line (n : nat) :
  forall s cur,
    (String.length s <= n)%nat ->
    one_line cur = true ->
    forallb one_line (splitlines_from cur s) = true.
Proof.
  induction n as [|n IH]; intros s cur Hlen Hcur.
  - destruct s; [|cbn in Hlen; lia]. cbn.
    destruct cur; [reflexivity|]. cbn [forallb]. now rewrite Hcur.
  - destruct s as [|c rest].
    { cbn. destruct cur; [reflexivity|]. cbn [forallb]. now rewrite Hcur. }
    cbn [String.length] in Hlen. cbn [splitlines_from].
    destruct (is_cr c) eqn:Hcr.
    + destruct rest as [|c' rest'].
      * cbn [forallb]. now rewrite Hcur.
      * cbn [String.length] in Hlen.
        destruct (is_lf c'); cbn [forallb]; rewrite Hcur; cbn [andb];
          apply IH; cbn [String.length]; try lia; reflexivity.
    + destruct (is_linebreak c) eqn:Hlb.
      * cbn [forallb]. rewrite Hcur. apply IH; [lia | reflexivity].
      * apply IH; [lia|]. unfold one_line. rewrite all_chars_app.
        fold (one_line cur). rewrite Hcur. cbn [all_chars andb].
        unfold is_boundary. now rewrite Hcr, Hlb.
Qed.

Lemma forallb_app_r {A} (P : A -> bool) (l1 l2 : list A) :
  forallb P (l1 ++ l2) = true -> forallb P l2 = true.
Proof.
  induction l1 as [|x l1 IH]; [trivial|]. cbn [app forallb].
  intros H. apply andb_prop in H as [_ H]. now apply IH.
Qed.

Lemma join_lines_chars (Q : ascii -> bool) (lines : list string) :
  Q "010"%char = true ->
  forallb (all_chars Q) lines = true ->
  all_chars Q (join LF lines) = true.
Proof.
  intros HLF. induction lines as [|l lines IH]; [reflexivity|].
  cbn [forallb]. intros H. apply andb_prop in H as [Hl Hrest].
  destruct lines as [|l' lines]; [exact Hl|].
  change (join LF (l :: l' :: lines)) with (l +:+ LF +:+ join LF (l' :: lines)).
  rewrite !all_chars_app, Hl, (IH Hrest). cbn [LF all_chars]. now rewrite HLF.
Qed.

(** X14: in the text [_strip_decorators] returns, lines end in a line feed
    and in nothing else: carriage returns and the other characters at which
    [splitlines] cuts do not occur. *)
Theorem strip_decorators_normalizes_line_ends (src : string) :
  all_chars (fun c => negb (is_boundary c) || is_lf c)
    (_strip_decorators src) = true.
Proof.
  unfold _strip_decorators. apply join_lines_chars; [reflexivity|].
  destruct (BundlerFacts.pop_decorators_split (splitlines src))
    as [removed [Hsplit _]].
  pose proof (splitlines_from_one_line (String.length src) src EmptyString
                (le_n _) eq_refl) as Hlines.
  fold (splitlines src) in Hlines. rewrite Hsplit in Hlines.
  apply forallb_app_r in Hlines.
  revert Hlines. generalize (pop_decorators (splitlines src)).
  intros kept. induction kept as [|l kept IH]; [reflexivity|].
  cbn [forallb]. intros H. apply andb_prop in H as [Hl Hrest].
  rewrite (IH Hrest), andb_true_r.
  apply (all_chars_weaken (fun c => negb (is_boundary c))); [|exact Hl].
  intros c Hc. now rewrite Hc.
Qed.

(** X15: a decorator line put on top of a source does not change what
    [_strip_decorators] returns for it: however many decorators are
    stacked on a definition, the bundle gets the same text. *)
Theorem strip_decorators_ignores_added_decorator (deco src : string) :
  is_decorator_line deco = true ->
  one_line deco = true ->
  _strip_decorators (deco +:+ LF +:+ src) = _strip_decorators src.
Proof.
  intros Hdeco Hline. unfold _strip_decorators, splitlines.
  rewrite (splitlines_from_line EmptyString deco (LF +:+ src) Hline).
  change (EmptyString +:+ deco) with deco.
  change (splitlines_from deco (LF +:+ src))
    with (deco :: splitlines_from EmptyString src).
  cbn [pop_decorators]. now rewrite Hdeco.
Qed.

Lemma append_not_empty (a : string) (c : ascii) :
  a +:+ String c EmptyString <> EmptyString.
Proof. now destruct a. Qed.

(** One step of [splitlines]. *)
Lemma splitlines_from_step (cur : string) (c : ascii) (rest : string) :
  splitlines_from cur (String c rest)
  = if is_cr c then
      match rest with
      | String c' rest' =>
          if is_lf c' then cur :: splitlines_from EmptyString rest'
          else cur :: splitlines_from EmptyString rest
      | EmptyString => [cur]
      end
    else if is_linebreak c then cur :: splitlines_from EmptyString rest
    else splitlines_from (cur +:+ String c EmptyString) rest.
Proof. reflexivity. Qed.

Lemma splitlines_from_final_LF (n : nat) :
  forall s cur,
    (String.length s <= n)%nat ->
    ends_open s = true ->
    splitlines_from cur (s +:+ LF) = splitlines_from cur s.
Proof.
  induction n as [|n IH]; intros s cur Hlen Hopen.
  - destruct s; [discriminate | cbn in Hlen; lia].
  - destruct s as [|c rest]; [discriminate|].
    cbn [String.length] in Hlen.
    change (String c rest +:+ LF) with (String c (rest +:+ LF)).
    rewrite (splitlines_from_step cur c (rest +:+ LF)).
    rewrite (splitlines_from_step cur c rest).
    destruct rest as [|c' rest'].
    + cbn [ends_open] in Hopen. destruct (not_boundary c Hopen) as [Hcr Hlb].
      rewrite Hcr, Hlb. change (EmptyString +:+ LF) with LF.
      cbn [splitlines_from LF].
      change (is_cr "010"%char) with false.
      change (is_linebreak "010"%char) with true. cbn [splitlines_from].
      destruct (cur +:+ String c EmptyString) eqn:Hcur; [|reflexivity].
      now apply append_not_empty in Hcur.
    + change (ends_open (String c (String c' rest')))
        with (ends_open (String c' rest')) in Hopen.
      cbn [String.length] in Hlen.
      assert (Hrest : forall cur',
                splitlines_from cur' (String c' rest' +:+ LF)
                = splitlines_from cur' (String c' rest')).
      { intros cur'. apply IH; [cbn [String.length]; lia | exact Hopen]. }
      change (String c' rest' +:+ LF) with (String c' (rest' +:+ LF)) in *.
      destruct (is_cr c).
      * destruct (is_lf c') eqn:Hlf.
        -- f_equal. apply IH; [lia|].
           destruct rest' as [|c'' rest'']; [|exact Hopen].
           cbn [ends_open] in Hopen. unfold is_boundary, is_linebreak in Hopen.
           unfold is_lf in Hlf. rewrite Hlf in Hopen. discriminate.
        -- now rewrite Hrest.
      * destruct (is_linebreak c); now rewrite Hrest.
Qed.

(** X16: a line feed that ends the source does not reach the bundle:
    [_strip_decorators] returns the same text with and without it. *)
Theorem strip_decorators_drops_final_newline (src : string) :
  ends_open src = true ->
  _strip_decorators (src +:+ LF) = _strip_decorators src.
Proof.
  intros Hopen. unfold _strip_decorators, splitlines.
  now rewrite (splitlines_from_final_LF (String.length src) src EmptyString
                 (le_n _) Hopen).
Qed.

Lemma lower_char_idempotent (c : ascii) :
  lower_char (lower_char c) = lower_char c.
Proof.
  destruct c as [b0 b1 b2 b3 b4 b5 b6 b7].
  destruct b0, b1, b2, b3, b4, b5, b6, b7; vm_compute; reflexivity.
Qed.

Lemma lower_idempotent (s : string) : lower (lower s) = lower s.
Proof.
  induction s as [|c s IH]; [reflexivity|]. cbn [lower].
  now rewrite lower_char_idempotent, IH.
Qed.

(** X17: the switch is off when USE_REMOTE_EXEC is unset, is compared
    without regard to letter case, and no other variable has a say. *)
Theorem remote_enabled_reads_one_variable_caselessly
    (env : gmap string string) (value name other : string) :
  _remote_enabled (delete "USE_REMOTE_EXEC" env) = false
  /\ _remote_enabled (<["USE_REMOTE_EXEC" := value]> env)
     = _remote_enabled (<["USE_REMOTE_EXEC" := lower value]> env)
  /\ (name <> "USE_REMOTE_EXEC" ->
      _remote_enabled (<[name := other]> env) = _remote_enabled env).
Proof.
  split; [|split].
  - unfold _remote_enabled, getenv. now rewrite lookup_delete_eq.
  - unfold _remote_enabled, getenv. rewrite !lookup_insert_eq.
    now rewrite lower_idempotent.
  - intros Hne. unfold _remote_enabled, getenv. now rewrite lookup_insert_ne.
Qed.

Lemma strip_decorators_ignores_added_decorator_witness :
  _strip_decorators ("  @functools.cache" +:+ LF +:+ Demo.hello_world_src)
  = _strip_decorators Demo.hello_world_src.
Proof.
  exact (strip_decorators_ignores_added_decorator "  @functools.cache"
           Demo.hello_world_src eq_refl eq_refl).
Defined.

Lemma strip_decorators_drops_final_newline_witness :
  _strip_decorators (("def f():" +:+ LF +:+ "    return 1") +:+ LF)
  = _strip_decorators ("def f():" +:+ LF +:+ "    return 1").
Proof.
  exact (strip_decorators_drops_final_newline
           ("def f():" +:+ LF +:+ "    return 1") eq_refl).
Defined.

End BundlerExtras.
